(** * CurrencyConversionGUI: the business, data-access and model layers

    A shallow embedding of [business/currency_service.py], [dal/dal.py] and
    [models/currency.py], and the properties of the quarter-end resolver,
    the Treasury response parser, the fetch client and the conversion.

    Conventions of the embedding:
    - Python integers are [Z]; Python [str] values are [string] (sequences of
      ASCII code points); Python [float] is IEEE binary64, taken from
      [SpecFloat] at precision 53 and maximal exponent 1024.
    - A call that may raise is a value of [result]: [Ok v] or [Raise e],
      where [e] is the class of the exception raised.  [except C] clauses are
      decided by [isinstance], over the class hierarchy of [requests] and of
      the builtins.
    - The wall clock and the network are the two fields of [World]; a
      function that reads either takes the world as an argument.
    - The values that [response.json()] can deliver are the type [pyval];
      a body that it does not decode is no JSON document, or meets one of
      two limits of the interpreter (digits of an integer, depth of
      recursion), which writing a value with [str] can meet as well.
    - Calls to [logger.info] / [logger.error] write to the log only and are
      left out; so is [extra_currency_counter], read only by a log line. *)

From Stdlib Require Import ZArith List String Ascii Bool Lia QArith.
From Stdlib Require Import DecimalString Permutation.
From Stdlib Require Floats.SpecFloat.
Import ListNotations.

Local Open Scope string_scope.
Local Open Scope list_scope.
Local Open Scope Z_scope.

Local Set Warnings "-register-all".

(** ** Exceptions *)

(** The exception classes that the three modules can meet.  The first group
    are builtins, then the classes of [requests.exceptions], then the two
    classes the repository imports from its [exceptions] module. *)
Inductive exn : Set :=
| Exception | LookupError | KeyError | IndexError | ValueError | TypeError
| ArithmeticError | OverflowError | RuntimeError | RecursionError | OSError
| json_JSONDecodeError | urllib3_HTTPError
| RequestException | InvalidJSONError | JSONDecodeError | HTTPError
| ConnectionError | ProxyError | SSLError | Timeout | ConnectTimeout
| ReadTimeout | URLRequired | TooManyRedirects | MissingSchema
| InvalidSchema | InvalidURL | InvalidProxyURL | InvalidHeader
| ChunkedEncodingError | ContentDecodingError | StreamConsumedError
| RetryError | UnrewindableBodyError
| BusinessLogicException | DalException.

Scheme Equality for exn.

(** Modelled from the spec: the module [exceptions] of the repository, from
    which [BusinessLogicException] and [DalException] are imported, is not
    among the sources.  The specification speaks of one error kind at each
    boundary and of no relation between the two classes; they are taken as
    two direct subclasses of [Exception]. *)
Definition repository_bases (c : exn) : list exn :=
  match c with
  | BusinessLogicException | DalException => [Exception]
  | _ => []
  end.

(** The base classes of each class, as in the [class C(B1, B2)] statements of
    Python and of [requests/exceptions.py]. *)
Definition bases (c : exn) : list exn :=
  match c with
  | Exception => []
  | LookupError | ValueError | TypeError | ArithmeticError | RuntimeError
  | OSError | urllib3_HTTPError => [Exception]
  | KeyError | IndexError => [LookupError]
  | OverflowError => [ArithmeticError]
  | RecursionError => [RuntimeError]
  | json_JSONDecodeError => [ValueError]
  | RequestException => [OSError]
  | InvalidJSONError | HTTPError | ConnectionError | Timeout | URLRequired
  | TooManyRedirects | ChunkedEncodingError | RetryError
  | UnrewindableBodyError => [RequestException]
  | JSONDecodeError => [InvalidJSONError; json_JSONDecodeError]
  | ProxyError | SSLError => [ConnectionError]
  | ConnectTimeout => [ConnectionError; Timeout]
  | ReadTimeout => [Timeout]
  | MissingSchema | InvalidSchema | InvalidURL | InvalidHeader =>
      [RequestException; ValueError]
  | InvalidProxyURL => [InvalidURL]
  | ContentDecodingError => [RequestException; urllib3_HTTPError]
  | StreamConsumedError => [RequestException; TypeError]
  | BusinessLogicException | DalException => repository_bases c
  end.

Fixpoint issubclass_upto (depth : nat) (c d : exn) : bool :=
  exn_beq c d ||
  match depth with
  | O => false
  | S depth' => existsb (fun b => issubclass_upto depth' b d) (bases c)
  end.

(** [issubclass c d]: the hierarchy above is six levels deep at most. *)
Definition issubclass (c d : exn) : bool := issubclass_upto 6 c d.

(** An [except (C1, C2)] clause catches [e] when [e] is an instance of one of
    the listed classes. *)
Definition isinstance (e : exn) (classes : list exn) : bool :=
  existsb (issubclass e) classes.

(** ** Results of calls that may raise *)

Inductive result (A : Type) : Type :=
| Ok (a : A)
| Raise (e : exn).
Arguments Ok {A} a.
Arguments Raise {A} e.

Definition bind {A B : Type} (m : result A) (k : A -> result B) : result B :=
  match m with
  | Ok a => k a
  | Raise e => Raise e
  end.

Notation "x <- m ;; k" := (bind m (fun x => k))
  (at level 61, m at next level, right associativity).
Notation "m ;;; k" := (bind m (fun _ => k))
  (at level 61, right associativity).

(** [try: m except classes: raise e']. *)
Definition except_raise {A : Type} (classes : list exn) (e' : exn)
    (m : result A) : result A :=
  match m with
  | Ok a => Ok a
  | Raise e => if isinstance e classes then Raise e' else Raise e
  end.

(** ** Limits of the interpreter *)

(** Reading a value from text and writing a value as text can meet two
    limits of the interpreter: an integer of more than
    [sys.get_int_max_str_digits()] digits is neither read nor written
    ([ValueError]), and a value nested deeper than the interpreter recurses
    is neither decoded nor written ([RecursionError]). *)
Inductive limit : Set := max_str_digits | recursion_depth.

Definition limit_error (l : limit) : exn :=
  match l with
  | max_str_digits => ValueError
  | recursion_depth => RecursionError
  end.

(** The default of [sys.get_int_max_str_digits()]. *)
Definition int_max_str_digits : Z := 4300.

(** The least integer of more digits than the limit, [10 ** 4300], kept as
    the number it is. *)
Definition int_str_bound : Z := Eval vm_compute in 10 ^ int_max_str_digits.

(** ** Characters and decimal digits *)

Definition is_digit (c : ascii) : bool :=
  let n := nat_of_ascii c in (48 <=? n)%nat && (n <=? 57)%nat.

Definition digit_value (c : ascii) : Z := Z.of_nat (nat_of_ascii c) - 48.

(** [Py_ISSPACE]: space, and tab to carriage return. *)
Definition is_space (c : ascii) : bool :=
  let n := nat_of_ascii c in
  (n =? 32)%nat || ((9 <=? n)%nat && (n <=? 13)%nat).

(** [Py_TOLOWER]. *)
Definition to_lower (c : ascii) : ascii :=
  let n := nat_of_ascii c in
  if (65 <=? n)%nat && (n <=? 90)%nat then ascii_of_nat (n + 32) else c.

(** [str(n)] for a Python integer. *)
Definition str_of_int (n : Z) : string := NilZero.string_of_int (Z.to_int n).

(** [str(n)] for an integer [n]: refused when [n] has more digits than the
    limit. *)
Definition py_str_of_int (n : Z) : result string :=
  if int_str_bound <=? Z.abs n then Raise ValueError
  else Ok (str_of_int n).

(** The value of a run of decimal digits, most significant first. *)
Definition digits_value (l : list ascii) : Z :=
  fold_left (fun acc c => 10 * acc + digit_value c) l 0.

Fixpoint span_digits (l : list ascii) : list ascii * list ascii :=
  match l with
  | c :: rest =>
      if is_digit c
      then let (ds, tl) := span_digits rest in (c :: ds, tl)
      else ([], l)
  | [] => ([], [])
  end.

Fixpoint lstrip (l : list ascii) : list ascii :=
  match l with
  | c :: rest => if is_space c then lstrip rest else l
  | [] => []
  end.

Definition strip (l : list ascii) : list ascii :=
  rev (lstrip (rev (lstrip l))).

(** ** Floats: IEEE binary64 *)

Import SpecFloat.

Definition float : Set := spec_float.

Definition prec : Z := 53.
Definition emax : Z := 1024.

(** [x * y] on floats: the product rounded to nearest, ties to even. *)
Definition float_mul (x y : float) : float := SFmul prec emax x y.

Definition is_finite (x : float) : bool :=
  match x with
  | S754_zero _ | S754_finite _ _ _ => true
  | _ => false
  end.

(** The binary64 value nearest to [num / den] (ties to even), with sign [s]. *)
Definition float_of_ratio (s : bool) (num den : positive) : float :=
  let '(q, e, l) := SFdiv_core_binary prec emax (Zpos num) 0 (Zpos den) 0 in
  binary_round_aux prec emax s q e l.

(** The binary64 value nearest to [digits * 10 ^ exp10]: what a decimal
    literal or [float("...")] denotes; beyond the largest float it is an
    infinity. *)
Definition float_of_decimal (s : bool) (digits exp10 : Z) : float :=
  match digits with
  | Zpos d =>
      if 0 <=? exp10
      then float_of_ratio s (d * Z.to_pos (10 ^ exp10)) 1
      else float_of_ratio s d (Z.to_pos (10 ^ (- exp10)))
  | _ => S754_zero s
  end.

(** The nearest binary64 value to an integer (ties to even). *)
Definition float_of_int (n : Z) : float := binary_normalize prec emax n 0 false.

(** *** [float(s)] for a string [s] *)

Definition parse_sign (l : list ascii) : bool * list ascii :=
  match l with
  | "-"%char :: rest => (true, rest)
  | "+"%char :: rest => (false, rest)
  | _ => (false, l)
  end.

(** [_Py_string_to_number_with_underscores]: an underscore is dropped when
    it stands between two digits and refuses the string anywhere else. *)
Fixpoint remove_underscores (prev : ascii) (l : list ascii)
  : option (list ascii) :=
  match l with
  | [] => if Ascii.eqb prev "_" then None else Some []
  | c :: rest =>
      if Ascii.eqb c "_" then
        if is_digit prev then remove_underscores c rest else None
      else if Ascii.eqb prev "_" && negb (is_digit c) then None
      else option_map (cons c) (remove_underscores c rest)
  end.

(** [_Py_parse_inf_or_nan], on a string that it must consume whole. *)
Definition parse_inf_or_nan (l : list ascii) : option float :=
  let (neg, rest) := parse_sign l in
  let word := string_of_list_ascii (map to_lower rest) in
  if String.eqb word "inf" || String.eqb word "infinity"
  then Some (S754_infinity neg)
  else if String.eqb word "nan" then Some S754_nan
  else None.

(** The exponent part [e[+-]ddd] of a decimal literal, up to the end of the
    string; [None] when it is malformed. *)
Definition parse_exponent (l : list ascii) : option Z :=
  match l with
  | [] => Some 0
  | c :: rest =>
      if Ascii.eqb c "e" || Ascii.eqb c "E" then
        let (eneg, rest1) := parse_sign rest in
        match span_digits rest1 with
        | ((_ :: _) as ds, []) =>
            Some (if eneg then - digits_value ds else digits_value ds)
        | _ => None
        end
      else None
  end.

(** [_Py_dg_strtod], on a string that it must consume whole: sign, digits
    with at most one point and at least one digit, optional exponent. *)
Definition parse_decimal (l : list ascii) : option float :=
  let (neg, rest) := parse_sign l in
  let (int_part, rest1) := span_digits rest in
  let (frac_part, rest2) :=
    match rest1 with
    | "."%char :: rest1' => span_digits rest1'
    | _ => ([], rest1)
    end in
  match int_part ++ frac_part with
  | [] => None
  | ds =>
      match parse_exponent rest2 with
      | Some e =>
          Some (float_of_decimal neg (digits_value ds)
                  (e - Z.of_nat (List.length frac_part)))
      | None => None
      end
  end.

(** [float(s)]: [None] stands for the [ValueError] "could not convert
    string to float". *)
Definition float_of_string (s : string) : option float :=
  match remove_underscores zero (strip (list_ascii_of_string s)) with
  | Some l =>
      match parse_inf_or_nan l with
      | Some x => Some x
      | None => parse_decimal l
      end
  | None => None
  end.

(** *** Formatting with [',.2f'] *)

(** [num / den] rounded to the nearest integer, ties to even. *)
Definition round_half_even (num den : Z) : Z :=
  let q := num / den in
  match 2 * (num mod den) ?= den with
  | Lt => q
  | Gt => q + 1
  | Eq => if Z.even q then q else q + 1
  end.

(** The magnitude of [x] in hundredths, correctly rounded. *)
Definition hundredths (x : float) : Z :=
  match x with
  | S754_finite _ m e =>
      if 0 <=? e then Zpos m * 2 ^ e * 100
      else round_half_even (Zpos m * 100) (2 ^ (- e))
  | _ => 0
  end.

(** Thousands separators are inserted from the right: on the reversed digit
    string, a comma after every third digit that has a digit after it. *)
Fixpoint group_rev (l : list ascii) : list ascii :=
  match l with
  | a :: b :: c :: (_ :: _) as rest => a :: b :: c :: ","%char :: group_rev rest
  | _ => l
  end.

Definition thousands (s : string) : string :=
  string_of_list_ascii (rev (group_rev (rev (list_ascii_of_string s)))).

Definition two_digits (n : Z) : string :=
  if n <? 10 then ("0" ++ str_of_int n)%string else str_of_int n.

(** [format(x, ',.2f')]. *)
Definition format_2f (x : float) : string :=
  match x with
  | S754_nan => "nan"
  | S754_infinity s => if s then "-inf" else "inf"
  | S754_zero s => if s then "-0.00" else "0.00"
  | S754_finite s _ _ =>
      let h := hundredths x in
      ((if s then "-" else "") ++ thousands (str_of_int (h / 100))
       ++ "." ++ two_digits (h mod 100))%string
  end.

(** ** Python values *)

(** What [json.loads] can return. *)
Inductive pyval : Type :=
| PNone
| PBool (b : bool)
| PInt (n : Z)
| PFloat (x : float)
| PStr (s : string)
| PList (items : list pyval)
| PDict (entries : list (string * pyval)).

(** [float(v)]. *)
Definition py_float (v : pyval) : result float :=
  match v with
  | PFloat x => Ok x
  | PInt n =>
      match float_of_int n with
      | S754_infinity _ => Raise OverflowError
      | x => Ok x
      end
  | PBool b => Ok (float_of_int (if b then 1 else 0))
  | PStr s =>
      match float_of_string s with
      | Some x => Ok x
      | None => Raise ValueError
      end
  | PNone | PList _ | PDict _ => Raise TypeError
  end.

Fixpoint lookup (key : string) (entries : list (string * pyval))
  : option pyval :=
  match entries with
  | [] => None
  | (k, v) :: rest => if String.eqb k key then Some v else lookup key rest
  end.

(** [v[key]] for a string [key]. *)
Definition subscript (v : pyval) (key : string) : result pyval :=
  match v with
  | PDict entries =>
      match lookup key entries with
      | Some x => Ok x
      | None => Raise KeyError
      end
  | _ => Raise TypeError
  end.

(** The items that [for x in v] goes through. *)
Definition iterate (v : pyval) : result (list pyval) :=
  match v with
  | PList items => Ok items
  | PDict entries => Ok (map (fun kv => PStr (fst kv)) entries)
  | PStr s =>
      Ok (map (fun c => PStr (String c EmptyString)) (list_ascii_of_string s))
  | _ => Raise TypeError
  end.

(** *** Values as dictionary keys *)

(** What a hashable value is compared by: [True == 1 == 1.0], and values of
    different kinds differ.  The NaN that [json] delivers is one object,
    [json.decoder.NaN], which a dictionary finds by identity. *)
Inductive keyval : Type :=
| KNone
| KStr (s : string)
| KNum (q : Q)
| KInf (negative : bool)
| KNaN.

Definition Q_of_float (s : bool) (m : positive) (e : Z) : Q :=
  (inject_Z (if s then Zneg m else Zpos m) * Qpower (2 # 1) e)%Q.

(** [None] for the unhashable values (lists and dicts). *)
Definition key_of (v : pyval) : option keyval :=
  match v with
  | PNone => Some KNone
  | PBool b => Some (KNum (inject_Z (if b then 1 else 0)))
  | PInt n => Some (KNum (inject_Z n))
  | PFloat (S754_zero _) => Some (KNum 0%Q)
  | PFloat (S754_finite s m e) => Some (KNum (Q_of_float s m e))
  | PFloat (S754_infinity s) => Some (KInf s)
  | PFloat S754_nan => Some KNaN
  | PStr s => Some (KStr s)
  | PList _ | PDict _ => None
  end.

Definition keyval_eqb (a b : keyval) : bool :=
  match a, b with
  | KNone, KNone => true
  | KStr s, KStr t => String.eqb s t
  | KNum p, KNum q => Qeq_bool p q
  | KInf s, KInf t => Bool.eqb s t
  | KNaN, KNaN => true
  | _, _ => false
  end.

(** [a == b] for two keys of a dictionary. *)
Definition key_eqb (a b : pyval) : bool :=
  match key_of a, key_of b with
  | Some x, Some y => keyval_eqb x y
  | _, _ => false
  end.

(** ** Calendar ([datetime] of the Python standard library) *)

Record date : Set := mkdate { d_year : Z; d_month : Z; d_day : Z }.

Record datetime : Set := mkdatetime {
  year : Z; month : Z; day : Z;
  hour : Z; minute : Z; second : Z; microsecond : Z }.

Definition MINYEAR : Z := 1.
Definition MAXYEAR : Z := 9999.
Definition MAXORDINAL : Z := 3652059.

Definition is_leap (y : Z) : bool :=
  (y mod 4 =? 0) && (negb (y mod 100 =? 0) || (y mod 400 =? 0)).

Definition days_in_month (y m : Z) : Z :=
  match m with
  | 2 => if is_leap y then 29 else 28
  | 4 | 6 | 9 | 11 => 30
  | _ => 31
  end.

(** [_DAYS_BEFORE_MONTH] of a common year. *)
Definition DAYS_BEFORE_MONTH (m : Z) : Z :=
  match m with
  | 1 => 0 | 2 => 31 | 3 => 59 | 4 => 90 | 5 => 120 | 6 => 151
  | 7 => 181 | 8 => 212 | 9 => 243 | 10 => 273 | 11 => 304 | _ => 334
  end.

Definition days_before_year (y : Z) : Z :=
  let y' := y - 1 in y' * 365 + y' / 4 - y' / 100 + y' / 400.

Definition days_before_month (y m : Z) : Z :=
  DAYS_BEFORE_MONTH m + (if (2 <? m) && is_leap y then 1 else 0).

Definition ymd2ord (y m d : Z) : Z :=
  days_before_year y + days_before_month y m + d.

Definition DI400Y : Z := 146097.
Definition DI100Y : Z := 36524.
Definition DI4Y : Z := 1461.

(** [_ord2ymd]: the proleptic Gregorian date of ordinal [n] (1 = 0001-01-01). *)
Definition ord2ymd (n : Z) : date :=
  let n := n - 1 in
  let n400 := n / DI400Y in
  let n := n mod DI400Y in
  let y := n400 * 400 + 1 in
  let n100 := n / DI100Y in
  let n := n mod DI100Y in
  let n4 := n / DI4Y in
  let n := n mod DI4Y in
  let n1 := n / 365 in
  let n := n mod 365 in
  let y := y + n100 * 100 + n4 * 4 + n1 in
  if (n1 =? 4) || (n100 =? 4) then mkdate (y - 1) 12 31
  else
    let leapyear := (n1 =? 3) && (negb (n4 =? 24) || (n100 =? 3)) in
    let m := Z.shiftr (n + 50) 5 in
    let preceding :=
      DAYS_BEFORE_MONTH m + (if (2 <? m) && leapyear then 1 else 0) in
    if n <? preceding then
      let m' := m - 1 in
      let dim := match m' with
                 | 2 => 28 | 4 | 6 | 9 | 11 => 30 | _ => 31
                 end in
      let preceding' :=
        preceding - (dim + (if (m' =? 2) && leapyear then 1 else 0)) in
      mkdate y m' (n - preceding' + 1)
    else mkdate y m (n - preceding + 1).

Definition valid_date (d : date) : Prop :=
  MINYEAR <= d_year d <= MAXYEAR /\ 1 <= d_month d <= 12 /\
  1 <= d_day d <= days_in_month (d_year d) (d_month d).

Definition valid_datetime (t : datetime) : Prop :=
  valid_date (mkdate (year t) (month t) (day t)) /\
  0 <= hour t < 24 /\ 0 <= minute t < 60 /\ 0 <= second t < 60 /\
  0 <= microsecond t < 1000000.

(** [t.date()]. *)
Definition date_of (t : datetime) : date := mkdate (year t) (month t) (day t).

Definition date_eqb (a b : date) : bool :=
  (d_year a =? d_year b) && (d_month a =? d_month b) && (d_day a =? d_day b).

(** [t - timedelta(days=n)]: the time of day is kept, the date moves by whole
    days; [OverflowError] when the date leaves [0001-01-01 .. 9999-12-31]. *)
Definition sub_days (t : datetime) (n : Z) : result datetime :=
  let o := ymd2ord (year t) (month t) (day t) - n in
  if (0 <? o) && (o <=? MAXORDINAL) then
    let d := ord2ymd o in
    Ok (mkdatetime (d_year d) (d_month d) (d_day d)
                   (hour t) (minute t) (second t) (microsecond t))
  else Raise OverflowError.

Definition in_range (lo hi : Z) (c : ascii) : bool :=
  (lo <=? digit_value c) && (digit_value c <=? hi).

(** The month field of the pattern that [_strptime] compiles for [%m]:
    [1[0-2]|0[1-9]|[1-9]], followed in the format by a literal [-]. *)
Definition parse_month (s : list ascii) : option (Z * list ascii) :=
  match s with
  | "1"%char :: c :: "-"%char :: rest =>
      if in_range 0 2 c then Some (10 + digit_value c, rest) else None
  | "0"%char :: c :: "-"%char :: rest =>
      if in_range 1 9 c then Some (digit_value c, rest) else None
  | c :: "-"%char :: rest =>
      if in_range 1 9 c then Some (digit_value c, rest) else None
  | _ => None
  end.

(** The day field, [3[0-1]|[1-2]\d|0[1-9]|[1-9]| [1-9]], which must end the
    string (anything left over is "unconverted data remains"). *)
Definition parse_day (s : list ascii) : option Z :=
  match s with
  | [c] => if in_range 1 9 c then Some (digit_value c) else None
  | ["3"%char; c] => if in_range 0 1 c then Some (30 + digit_value c) else None
  | ["0"%char; c] => if in_range 1 9 c then Some (digit_value c) else None
  | [" "%char; c] => if in_range 1 9 c then Some (digit_value c) else None
  | [a; c] =>
      if in_range 1 2 a && is_digit c
      then Some (10 * digit_value a + digit_value c) else None
  | _ => None
  end.

(** The fields that the pattern of ['%Y-%m-%d'] finds in [s]: four digits of
    year, then month and day as above. *)
Definition match_Ymd (s : string) : option (Z * Z * Z) :=
  match list_ascii_of_string s with
  | y1 :: y2 :: y3 :: y4 :: "-"%char :: rest =>
      if is_digit y1 && is_digit y2 && is_digit y3 && is_digit y4 then
        let y := 1000 * digit_value y1 + 100 * digit_value y2
                 + 10 * digit_value y3 + digit_value y4 in
        match parse_month rest with
        | Some (m, rest') =>
            match parse_day rest' with
            | Some d => Some (y, m, d)
            | None => None
            end
        | None => None
        end
      else None
  | _ => None
  end.

(** [datetime.strptime(s, '%Y-%m-%d')]: the fields of the pattern, then the
    construction of the date, which refuses year 0 and a day past the end of
    the month.  Every failure is a [ValueError]. *)
Definition strptime_Ymd (s : string) : result datetime :=
  match match_Ymd s with
  | Some (y, m, d) =>
      if (MINYEAR <=? y) && (d <=? days_in_month y m)
      then Ok (mkdatetime y m d 0 0 0 0)
      else Raise ValueError
  | None => Raise ValueError
  end.

(** ** The world: wall clock and network *)

(** What [response.json()] makes of a body: the value it decodes to; or the
    body is no JSON document; or decoding it meets a limit (an integer
    literal of too many digits, arrays or objects nested too deep). *)
Inductive json_body : Type :=
| decoded (v : pyval)
| not_json
| over_limit (l : limit).

(** A [requests.Response], as far as the parser looks at it: the status and
    the body. *)
Record Response : Type := mkResponse {
  status_code : Z;
  body : json_body }.

(** The value of a body that decodes. *)
Definition body_json (response : Response) : option pyval :=
  match body response with
  | decoded v => Some v
  | _ => None
  end.

(** [response.raise_for_status()]. *)
Definition raise_for_status (response : Response) : result unit :=
  let s := status_code response in
  if ((400 <=? s) && (s <? 500)) || ((500 <=? s) && (s <? 600))
  then Raise HTTPError else Ok tt.

(** [response.json()]: [json.loads] on the text of the body, its
    [json.JSONDecodeError] raised again as the [JSONDecodeError] of
    [requests]; what else [json.loads] raises passes through. *)
Definition json (response : Response) : result pyval :=
  match body response with
  | decoded v => Ok v
  | not_json => Raise JSONDecodeError
  | over_limit l => Raise (limit_error l)
  end.

Record World : Type := mkWorld {
  (** what [datetime.now()] returns *)
  now : datetime;
  (** what [requests.get(url, params=params)] does *)
  requests_get : string -> list (string * pyval) -> result Response }.

(** ** [models/currency.py] *)

Record Currency : Type := mkCurrency {
  _country_name : pyval;
  _currency_name : pyval;
  _conversion_rate : pyval }.

(** [Currency.__init__]: the three arguments are stored as they come. *)
Definition Currency_init (country_name currency_name conversion_rate : pyval)
  : result Currency :=
  Ok (mkCurrency country_name currency_name conversion_rate).

Section Conversion.

(** [str(v)] for a float, a list or a dict: the text that Python prints for
    them is left open, and so is whether writing it meets a limit (a list
    that holds an integer of too many digits, lists nested too deep). *)
Variable repr_other : pyval -> string + limit.

(** [str(v)], as an f-string field without format specification renders. *)
Definition py_str (v : pyval) : result string :=
  match v with
  | PStr s => Ok s
  | PNone => Ok "None"
  | PBool b => Ok (if b then "True" else "False")
  | PInt n => py_str_of_int n
  | _ =>
      match repr_other v with
      | inl s => Ok s
      | inr l => Raise (limit_error l)
      end
  end.

(** [Currency.convert]: the rate is coerced first, then the three fields of
    the f-string are written from left to right. *)
Definition convert (self : Currency) (usd_amount : float) : result string :=
  rate <- py_float (_conversion_rate self) ;;
  let converted_currency := float_mul usd_amount rate in
  name <- py_str (_currency_name self) ;;
  Ok ("$" ++ format_2f usd_amount ++ " USD = "
      ++ format_2f converted_currency ++ " " ++ name)%string.

End Conversion.

(** ** [dal/dal.py] *)

Definition BASE_URL : string :=
  "https://api.fiscaldata.treasury.gov/services/api/fiscal_service".
Definition ENDPOINT : string := "/v1/accounting/od/rates_of_exchange".
Definition DESIRED_PAGE_NUMBER : Z := 1.
Definition DESIRED_PAGE_SIZE : Z := 200.

(** The local variables [url] and [params] of [fetch_treasury_data]. *)
Definition url : string := (BASE_URL ++ ENDPOINT)%string.

Definition params : list (string * pyval) :=
  [("sort", PStr "-record_date");
   ("format", PStr "json");
   ("page[number]", PInt DESIRED_PAGE_NUMBER);
   ("page[size]", PInt DESIRED_PAGE_SIZE)].

(** [fetch_treasury_data()]. *)
Definition fetch_treasury_data (w : World) : result Response :=
  match requests_get w url params with
  | Ok response => Ok response
  | Raise e =>
      if isinstance e [Timeout] then Raise DalException
      else if isinstance e [ConnectionError] then Raise DalException
      else if isinstance e [RequestException] then Raise DalException
      else Raise e
  end.

(** ** [business/currency_service.py] *)

Definition APRIL : Z := 4.
Definition ONE_YEAR_IN_DAYS : Z := 365.
Definition JULY : Z := 7.
Definition OCTOBER : Z := 10.
Definition DECEMBER : Z := 12.

(** [find_last_quarter_date()]. *)
Definition find_last_quarter_date (w : World) : result date :=
  let today := now w in
  if month today <? APRIL then
    today <- sub_days today ONE_YEAR_IN_DAYS ;;
    last_quarter <- strptime_Ymd (str_of_int (year today) ++ "-12-31")%string ;;
    Ok (date_of last_quarter)
  else if month today <? JULY then
    last_quarter <- strptime_Ymd (str_of_int (year today) ++ "-03-31")%string ;;
    Ok (date_of last_quarter)
  else if month today <? OCTOBER then
    last_quarter <- strptime_Ymd (str_of_int (year today) ++ "-06-30")%string ;;
    Ok (date_of last_quarter)
  else if month today <=? DECEMBER then
    last_quarter <- strptime_Ymd (str_of_int (year today) ++ "-09-30")%string ;;
    Ok (date_of last_quarter)
  else Raise BusinessLogicException.

(** [handle_request_errors(func)]: the three [except] clauses of the
    wrapper, tried in order. *)
Definition handle_request_errors {A B : Type} (func : A -> result B)
  : A -> result B :=
  fun self =>
    match func self with
    | Ok v => Ok v
    | Raise e =>
        if isinstance e [HTTPError] then Raise BusinessLogicException
        else if isinstance e [JSONDecodeError] then Raise BusinessLogicException
        else if isinstance e [KeyError; IndexError]
        then Raise BusinessLogicException
        else Raise e
    end.

(** The dictionary that the parser builds: keys in insertion order, each
    with the list it owns. *)
Definition currency_map : Type := list (pyval * list Currency).

(** [key in d.keys()]: hashing an unhashable key is a [TypeError]. *)
Definition dict_contains (d : currency_map) (key : pyval) : result bool :=
  match key_of key with
  | Some _ => Ok (existsb (fun kv => key_eqb (fst kv) key) d)
  | None => Raise TypeError
  end.

(** [d[key]]. *)
Fixpoint dict_getitem (d : currency_map) (key : pyval)
  : result (list Currency) :=
  match d with
  | [] => Raise KeyError
  | (k, v) :: rest => if key_eqb k key then Ok v else dict_getitem rest key
  end.

(** [d[key] = v]: a key that is present keeps its place (and the key object
    first inserted), a new key goes last. *)
Fixpoint dict_setitem (d : currency_map) (key : pyval) (v : list Currency)
  : currency_map :=
  match d with
  | [] => [(key, v)]
  | (k, v') :: rest =>
      if key_eqb k key then (k, v) :: rest
      else (k, v') :: dict_setitem rest key v
  end.

(** The four assignments under [# grab variables]; the loop variable
    [result] is [row] here. *)
Definition row_fields (row : pyval) : result (date * pyval * pyval * pyval) :=
  date_field <- subscript row "record_date" ;;
  record_date <-
    match date_field with
    | PStr s => strptime_Ymd s
    | _ => Raise TypeError
    end ;;
  country_name <- subscript row "country" ;;
  currency_name <- subscript row "currency" ;;
  exchange_rate <- subscript row "exchange_rate" ;;
  Ok (date_of record_date, country_name, currency_name, exchange_rate).

(** The body of the [for result in response_json['data']] loop. *)
Definition parse_row (last_quarter_date : date) (currency_dict : currency_map)
    (row : pyval) : result currency_map :=
  fields <- row_fields row ;;
  let '(record_date, country_name, currency_name, exchange_rate) := fields in
  if date_eqb record_date last_quarter_date then
    present <- dict_contains currency_dict country_name ;;
    if present then
      new_currency <- Currency_init country_name currency_name exchange_rate ;;
      entry <- dict_getitem currency_dict country_name ;;
      (* [append] changes the list that the dictionary holds *)
      Ok (dict_setitem currency_dict country_name (entry ++ [new_currency]))
    else
      new_country <- Currency_init country_name currency_name exchange_rate ;;
      Ok (dict_setitem currency_dict country_name [new_country])
  else Ok currency_dict.

Fixpoint parse_rows (last_quarter_date : date) (currency_dict : currency_map)
    (rows : list pyval) : result currency_map :=
  match rows with
  | [] => Ok currency_dict
  | row :: rest =>
      currency_dict <- parse_row last_quarter_date currency_dict row ;;
      parse_rows last_quarter_date currency_dict rest
  end.

(** [parse_treasury_response] before decoration. *)
Definition parse_treasury_response_body (w : World) (response : Response)
  : result currency_map :=
  raise_for_status response ;;;
  response_json <- json response ;;
  last_quarter_date <- find_last_quarter_date w ;;
  data <- subscript response_json "data" ;;
  rows <- iterate data ;;
  parse_rows last_quarter_date [] rows.

(** [parse_treasury_response], decorated with [handle_request_errors]. *)
Definition parse_treasury_response (w : World) (response : Response)
  : result currency_map :=
  handle_request_errors (parse_treasury_response_body w) response.

(** [get_currency_data()]. *)
Definition get_currency_data (w : World) : result currency_map :=
  except_raise [DalException; BusinessLogicException] BusinessLogicException
    (response <- fetch_treasury_data w ;;
     parse_treasury_response w response).


(** ** Reference definitions, in the words of the specification *)

(** The fixed quarter table: the last day of the quarter completed before
    month [m] of year [y]. *)
Definition quarter_end_table (y m : Z) : date :=
  if m <=? 3 then mkdate (y - 1) 12 31
  else if m <=? 6 then mkdate y 3 31
  else if m <=? 9 then mkdate y 6 30
  else mkdate y 9 30.

(** The last day of a calendar quarter. *)
Definition is_quarter_end (d : date) : bool :=
  match d_month d, d_day d with
  | 3, 31 | 6, 30 | 9, 30 | 12, 31 => true
  | _, _ => false
  end.

(** The rows of a payload that belong under key [k]: those dated
    [last_quarter_date] whose country equals [k], as [Currency] entries in
    the order of the payload. *)
Definition selected_rows (last_quarter_date : date) (k : pyval)
    (rows : list (date * pyval * pyval * pyval)) : list Currency :=
  flat_map
    (fun '(record_date, country_name, currency_name, exchange_rate) =>
       if date_eqb record_date last_quarter_date && key_eqb country_name k
       then [mkCurrency country_name currency_name exchange_rate]
       else [])
    rows.

(** A row that lacks one of the four fields, the fields read before the
    missing one being in order. *)
Definition row_missing_field (row : pyval) : Prop :=
  exists entries, row = PDict entries /\
    (lookup "record_date" entries = None \/
     (exists s t, lookup "record_date" entries = Some (PStr s) /\
                  strptime_Ymd s = Ok t) /\
     (lookup "country" entries = None \/
      lookup "currency" entries = None \/
      lookup "exchange_rate" entries = None)).

(** The failures of the parser that the specification lists: an HTTP error
    status, a body that does not decode, a payload without its [data] field,
    and a row without one of its fields (after rows that went through). *)
Inductive parser_failure (w : World) (response : Response) : Prop :=
| http_error_status :
    400 <= status_code response < 600 ->
    parser_failure w response
| undecodable_payload :
    raise_for_status response = Ok tt ->
    body response = not_json ->
    parser_failure w response
| missing_data :
    forall entries q,
      raise_for_status response = Ok tt ->
      body_json response = Some (PDict entries) ->
      find_last_quarter_date w = Ok q ->
      lookup "data" entries = None ->
      parser_failure w response
| missing_field :
    forall v q data before d row rest,
      raise_for_status response = Ok tt ->
      body_json response = Some v ->
      find_last_quarter_date w = Ok q ->
      subscript v "data" = Ok data ->
      iterate data = Ok (before ++ row :: rest) ->
      parse_rows q [] before = Ok d ->
      row_missing_field row ->
      parser_failure w response.

(** The error classes that [handle_request_errors] names. *)
Definition underlying_errors : list exn :=
  [HTTPError; JSONDecodeError; KeyError; IndexError].

(** A digit string with thousands separators, read from its last character:
    runs of three digits closed by a comma, then one to three digits. *)
Fixpoint grouped_rev (l : list ascii) : bool :=
  match l with
  | [] => false
  | [a] => is_digit a
  | [a; b] => is_digit a && is_digit b
  | [a; b; c] => is_digit a && is_digit b && is_digit c
  | a :: b :: c :: sep :: rest =>
      is_digit a && is_digit b && is_digit c && Ascii.eqb sep ","
      && grouped_rev rest
  end.

(** An unsigned amount: integer part with separators, a point, two digits. *)
Definition amount_body (l : list ascii) : bool :=
  match rev l with
  | d2 :: d1 :: dot :: int_part =>
      is_digit d2 && is_digit d1 && Ascii.eqb dot "." && grouped_rev int_part
  | _ => false
  end.

(** An amount with exactly two decimals and thousands separators:
    [-?d{1,3}(,ddd)*.dd]. *)
Definition two_decimals_grouped (s : string) : bool :=
  match list_ascii_of_string s with
  | c :: l => if Ascii.eqb c "-" then amount_body l else amount_body (c :: l)
  | [] => false
  end.

(** ** Checks by enumeration *)

(** [str(y)] is four digits that spell [y]. *)
Definition year_digits_ok (y : Z) : bool :=
  match list_ascii_of_string (str_of_int y) with
  | [a; b; c; d] =>
      is_digit a && is_digit b && is_digit c && is_digit d
      && (1000 * digit_value a + 100 * digit_value b
          + 10 * digit_value c + digit_value d =? y)
  | _ => false
  end.

(** The [n] integers from [y] on. *)
Fixpoint count_from (n : nat) (y : Z) : list Z :=
  match n with
  | O => []
  | S n' => y :: count_from n' (y + 1)
  end.

Definition four_digit_years : list Z := count_from (Z.to_nat 9000) 1000.

(** [two_digits] writes two decimal digits. *)
Definition two_digits_ok (n : Z) : bool :=
  match list_ascii_of_string (two_digits n) with
  | [a; b] => is_digit a && is_digit b
  | _ => false
  end.

Definition below_hundred : list Z := count_from 100 0.

(** ** Worlds and payloads for the examples *)

(** A network on which every request fails to connect. *)
Definition no_network : string -> list (string * pyval) -> result Response :=
  fun _ _ => Raise ConnectionError.

(** A world whose clock shows 4 November 2023, 09:15. *)
Definition november_2023 : World :=
  mkWorld (mkdatetime 2023 11 4 9 15 0 0) no_network.

(** A row of the Treasury payload. *)
Definition treasury_row (record_date country currency : string) (rate : pyval)
  : pyval :=
  PDict [("record_date", PStr record_date); ("country", PStr country);
         ("currency", PStr currency); ("exchange_rate", rate)].

(** A 200 response whose [data] array holds [rows]. *)
Definition response_with (rows : list pyval) : Response :=
  mkResponse 200 (decoded (PDict [("data", PList rows)])).

(** The payload of the specification's example, for the quarter end 30
    September 2023: two rows of Germany at the quarter end, one row of France
    at another date. *)
Definition example_payload : list pyval :=
  [treasury_row "2023-09-30" "Germany" "Euro"
     (PFloat (float_of_decimal false 94 (-2)));
   treasury_row "2023-09-30" "Germany" "Other"
     (PFloat (float_of_decimal false 11 (-1)));
   treasury_row "2023-06-30" "France" "Euro"
     (PFloat (float_of_decimal false 95 (-2)))].

(** The fields of the rows of [example_payload]. *)
Definition example_fields : list (date * pyval * pyval * pyval) :=
  [(mkdate 2023 9 30, PStr "Germany", PStr "Euro",
    PFloat (float_of_decimal false 94 (-2)));
   (mkdate 2023 9 30, PStr "Germany", PStr "Other",
    PFloat (float_of_decimal false 11 (-1)));
   (mkdate 2023 6 30, PStr "France", PStr "Euro",
    PFloat (float_of_decimal false 95 (-2)))].

(** A payload with rows of earlier quarters only. *)
Definition stale_payload : list pyval :=
  [treasury_row "2023-06-30" "France" "Euro" (PStr "0.95");
   treasury_row "2023-03-31" "Japan" "Yen" (PStr "132.5")].

Definition stale_fields : list (date * pyval * pyval * pyval) :=
  [(mkdate 2023 6 30, PStr "France", PStr "Euro", PStr "0.95");
   (mkdate 2023 3 31, PStr "Japan", PStr "Yen", PStr "132.5")].

(** The floats [0.94] and [100.0], and the currency of the example. *)
Definition rate_0_94 : float := float_of_decimal false 94 (-2).
Definition usd_100 : float := float_of_decimal false 1000 (-1).

Definition euro : Currency :=
  mkCurrency (PStr "Germany") (PStr "Euro") (PFloat rate_0_94).

(** A row that lacks its [country] and whose date is written day first, and
    a row whose date is [null]. *)
Definition row_without_country : list (string * pyval) :=
  [("record_date", PStr "30/09/2023"); ("currency", PStr "Euro");
   ("exchange_rate", PStr "0.94")].

Definition row_with_null_date : list (string * pyval) :=
  [("record_date", PNone); ("currency", PStr "Euro");
   ("exchange_rate", PStr "0.94")].

(** ** Auxiliary definitions of the proofs about the parser *)

(** What one matching row does to the dictionary, in one pass over it: the
    first entry whose key equals [country] receives the currency at the end
    of its list; failing that, a new entry goes last. *)
Fixpoint upsert (d : currency_map) (country : pyval) (c : Currency)
  : currency_map :=
  match d with
  | [] => [(country, [c])]
  | (k, v) :: rest =>
      if key_eqb k country then (k, v ++ [c]) :: rest
      else (k, v) :: upsert rest country c
  end.

(** A lookup after some more currencies [l] have arrived under the key. *)
Definition append_result (r : result (list Currency)) (l : list Currency)
  : result (list Currency) :=
  match r, l with
  | Ok v, _ => Ok (v ++ l)
  | Raise e, [] => Raise e
  | Raise _, _ :: _ => Ok l
  end.

(** Every key holds at least one currency, and only currencies of its own
    country. *)
Definition entries_well_formed (d : currency_map) : Prop :=
  Forall (fun kv =>
            snd kv <> [] /\
            Forall (fun c => key_eqb (fst kv) (_country_name c) = true)
                   (snd kv))
         d.

(** The date and the country of a row that has been read. *)
Definition field_date (f : date * pyval * pyval * pyval) : date :=
  let '(d, _, _, _) := f in d.

Definition field_country (f : date * pyval * pyval * pyval) : pyval :=
  let '(_, c, _, _) := f in c.

(** [fields] are the fields of [rows], every row being readable. *)
Definition fields_of (rows : list pyval)
    (fields : list (date * pyval * pyval * pyval)) : Prop :=
  Forall2 (fun row f => row_fields row = Ok f) rows fields.

(** ** Reference definitions for further properties *)

(** The currencies of all rows dated at the quarter end, in the order of the
    payload. *)
Definition quarter_rows (last_quarter_date : date)
    (rows : list (date * pyval * pyval * pyval)) : list Currency :=
  flat_map
    (fun '(record_date, country_name, currency_name, exchange_rate) =>
       if date_eqb record_date last_quarter_date
       then [mkCurrency country_name currency_name exchange_rate]
       else [])
    rows.

(** No two keys are equal. *)
Definition keys_distinct (d : currency_map) : Prop :=
  ForallOrdPairs (fun a b => key_eqb a b = false) (map fst d).

(** The classes of exception that leave the parser. *)
Definition parser_errors : list exn :=
  [BusinessLogicException; ValueError; TypeError; OverflowError;
   RecursionError].

(** The classes caught by name somewhere in the data-access or business
    layer, and the class of the data-access layer itself. *)
Definition transport_errors : list exn := [RequestException; DalException].

(** The names that [str] refuses: an integer of more digits than the limit,
    or a float, list or dict whose text meets a limit. *)
Definition name_refused (repr_other : pyval -> string + limit)
    (name : pyval) (e : exn) : Prop :=
  (e = ValueError /\
   exists n, name = PInt n /\ int_str_bound <= Z.abs n) \/
  (exists l, repr_other name = inr l /\ e = limit_error l /\
             match name with
             | PFloat _ | PList _ | PDict _ => True
             | _ => False
             end).

(** An amount as [convert] writes it: with thousands separators and two
    decimals when it is finite, and as [inf], [-inf] or [nan] when it is
    not. *)
Definition amount_written (x : float) (s : string) : bool :=
  if is_finite x then two_decimals_grouped s
  else existsb (String.eqb s) ["inf"; "-inf"; "nan"].

(** The rates that [float] refuses. *)
Definition rate_refused (rate : pyval) (e : exn) : Prop :=
  (e = ValueError /\ exists s, rate = PStr s /\ float_of_string s = None) \/
  (e = TypeError /\
   (rate = PNone \/ (exists l, rate = PList l) \/ (exists l, rate = PDict l))) \/
  (e = OverflowError /\
   exists n, rate = PInt n /\ is_finite (float_of_int n) = false).

(** ** [gui/gui.py]: the form and the handlers that run on its thread *)

(** [str.isspace] on ASCII: the characters that [str.strip()] removes. *)
Definition is_str_space (c : ascii) : bool :=
  let n := nat_of_ascii c in
  ((9 <=? n)%nat && (n <=? 13)%nat) || ((28 <=? n)%nat && (n <=? 32)%nat).

Fixpoint str_lstrip (l : list ascii) : list ascii :=
  match l with
  | c :: rest => if is_str_space c then str_lstrip rest else l
  | [] => []
  end.

(** [s.strip()]. *)
Definition str_strip (s : string) : string :=
  string_of_list_ascii
    (rev (str_lstrip (rev (str_lstrip (list_ascii_of_string s))))).

(** [x > y] on floats. *)
Definition float_gt (x y : float) : bool := SFltb y x.

(** The [state] option of a widget. *)
Inductive widget_state : Set := normal | disabled | readonly.

(** The widgets of [ConversionForm], as far as the handlers read or change
    them: the values, state and text of the combobox, the text of the
    entry, the state of the button, the state and content of the result
    text, and the message boxes shown so far (title and message). *)
Record ConversionForm : Type := mkForm {
  currency_dropdown_values : list pyval;
  currency_dropdown_state : widget_state;
  currency_dropdown : string;
  usd_entry : string;
  convert_button : widget_state;
  result_text_state : widget_state;
  result_text : string;
  shown : list (string * string) }.

(** [messagebox.showinfo(title, message)]. *)
Definition showinfo (title message : string) (f : ConversionForm)
  : ConversionForm :=
  mkForm (currency_dropdown_values f) (currency_dropdown_state f)
         (currency_dropdown f) (usd_entry f) (convert_button f)
         (result_text_state f) (result_text f)
         (shown f ++ [(title, message)]).

(** [self.result_text.config(state=s)]. *)
Definition result_text_config (s : widget_state) (f : ConversionForm)
  : ConversionForm :=
  mkForm (currency_dropdown_values f) (currency_dropdown_state f)
         (currency_dropdown f) (usd_entry f) (convert_button f)
         s (result_text f) (shown f).

(** The content of the text widget set to [content]; a disabled text widget
    ignores insertions and deletions. *)
Definition result_text_set (content : string) (f : ConversionForm)
  : ConversionForm :=
  match result_text_state f with
  | disabled => f
  | _ =>
      mkForm (currency_dropdown_values f) (currency_dropdown_state f)
             (currency_dropdown f) (usd_entry f) (convert_button f)
             (result_text_state f) content (shown f)
  end.

(** [self.result_text.delete('1.0', tk.END)]. *)
Definition result_text_delete (f : ConversionForm) : ConversionForm :=
  result_text_set "" f.

(** [self.result_text.insert(tk.END, s)]. *)
Definition result_text_insert (s : string) (f : ConversionForm)
  : ConversionForm :=
  result_text_set (result_text f ++ s) f.

(** [self.convert_button.config(state=s)]. *)
Definition convert_button_config (s : widget_state) (f : ConversionForm)
  : ConversionForm :=
  mkForm (currency_dropdown_values f) (currency_dropdown_state f)
         (currency_dropdown f) (usd_entry f) s
         (result_text_state f) (result_text f) (shown f).

(** [self.usd_entry.delete(0, tk.END)]. *)
Definition usd_entry_delete (f : ConversionForm) : ConversionForm :=
  mkForm (currency_dropdown_values f) (currency_dropdown_state f)
         (currency_dropdown f) "" (convert_button f)
         (result_text_state f) (result_text f) (shown f).

(** [is_float(value)] for the text of the entry: [float] is tried, a
    [ValueError] is answered with [False], and the value must be above
    zero. *)
Definition is_float (value : string) : result bool :=
  match py_float (PStr value) with
  | Raise e => if isinstance e [ValueError] then Ok false else Raise e
  | Ok _ =>
      x <- py_float (PStr value) ;;
      if float_gt x (S754_zero false) then Ok true else Ok false
  end.

(** [validate_usd()]. *)
Definition validate_usd (f : ConversionForm) : ConversionForm * result bool :=
  let usd_amount := str_strip (usd_entry f) in
  if String.eqb usd_amount "" then
    (showinfo "Error" "You must enter a USD amount to convert!" f, Ok false)
  else
    match is_float usd_amount with
    | Raise e => (f, Raise e)
    | Ok false =>
        (showinfo "Error"
           "USD amount can only be numbers (and decimal point...)" f,
         Ok false)
    | Ok true => (f, Ok true)
    end.

(** [validate_combobox()]. *)
Definition validate_combobox (f : ConversionForm) : ConversionForm * bool :=
  let selected_item := currency_dropdown f in
  if String.eqb selected_item "" then
    (showinfo "Error" "You have to select a currency!" f, false)
  else (f, true).

(** The line feed that ends each line of the result. *)
Definition newline : string := String "010"%char EmptyString.

Section Handlers.

Variable repr_other : pyval -> string + limit.

(** The loop over the currencies of the selected country: [float] of the
    entry text, [convert], and the line put at the end of the result. *)
Fixpoint insert_conversions (usd_amount : string) (currencies : list Currency)
    (f : ConversionForm) : ConversionForm * result unit :=
  match currencies with
  | [] => (f, Ok tt)
  | currency :: rest =>
      match py_float (PStr usd_amount) with
      | Raise e => (f, Raise e)
      | Ok x =>
          match convert repr_other currency x with
          | Raise e => (f, Raise e)
          | Ok conversion_string =>
              insert_conversions usd_amount rest
                (result_text_insert (conversion_string ++ newline) f)
          end
      end
  end.

(** [update_conversion_form_for_convert(currency_dict)]: the form after the
    handler, and whether it returned or raised.  [validate_usd] runs only
    when [validate_combobox] has answered [True]. *)
Definition update_conversion_form_for_convert (currency_dict : currency_map)
    (f : ConversionForm) : ConversionForm * result unit :=
  let (f, selected) := validate_combobox f in
  match (if selected then validate_usd f else (f, Ok false)) with
  | (f, Raise e) => (f, Raise e)
  | (f, Ok true) =>
      let usd_amount := usd_entry f in
      let country_to_convert := currency_dropdown f in
      let f := result_text_config normal f in
      let f := result_text_delete f in
      match dict_getitem currency_dict (PStr country_to_convert) with
      | Raise e => (f, Raise e)
      | Ok currencies =>
          match insert_conversions usd_amount currencies f with
          | (f, Raise e) => (f, Raise e)
          | (f, Ok _) =>
              let f := result_text_config disabled f in
              (convert_button_config normal f, Ok tt)
          end
      end
  | (f, Ok false) =>
      let f := usd_entry_delete f in
      (convert_button_config normal f, Ok tt)
  end.

End Handlers.

(** [update_text(message)]. *)
Definition update_text (message : string) (f : ConversionForm)
  : ConversionForm :=
  let f := result_text_config normal f in
  let f := result_text_delete f in
  let f := result_text_insert message f in
  result_text_config disabled f.

(** [update_conversion_form_first_load(currency_dict)]. *)
Definition update_conversion_form_first_load (currency_dict : currency_map)
    (f : ConversionForm) : ConversionForm :=
  let key_list := map fst currency_dict in
  let f := mkForm key_list (currency_dropdown_state f) (currency_dropdown f)
                  (usd_entry f) (convert_button f) (result_text_state f)
                  (result_text f) (shown f) in
  let f := update_text "Currencies loaded, ready to convert!" f in
  let f := mkForm (currency_dropdown_values f) readonly (currency_dropdown f)
                  (usd_entry f) (convert_button f) (result_text_state f)
                  (result_text f) (shown f) in
  convert_button_config normal f.

(** The errors that can end [update_conversion_form_for_convert]. *)
Definition handler_errors : list exn :=
  [KeyError; ValueError; TypeError; OverflowError; RecursionError].

(** A form as it stands when the user has chosen Germany, typed an amount
    and clicked the button. *)
Definition form_after_click (amount : string) : ConversionForm :=
  mkForm [PStr "Germany"] readonly "Germany" amount disabled disabled
         "Currencies loaded, ready to convert!" [].

(** No character of the text is one of the four separators (file, group,
    record, unit) that [str.strip()] removes and [float] does not accept. *)
Definition no_separator (s : string) : Prop :=
  Forall (fun c => is_str_space c = is_space c) (list_ascii_of_string s).

(** The text of the entry, stripped, is read by [float] as a value above
    zero. *)
Definition usd_accepted (f : ConversionForm) : bool :=
  match float_of_string (str_strip (usd_entry f)) with
  | Some x => float_gt x (S754_zero false)
  | None => false
  end.

(** The content of the result text after the lines [lines]. *)
Fixpoint lines_text (lines : list string) : string :=
  match lines with
  | [] => EmptyString
  | s :: rest => (s ++ newline ++ lines_text rest)%string
  end.

(** The lines that the handler writes for the currencies [l] and the amount
    [x]. *)
Definition conversion_lines (repr_other : pyval -> string + limit)
    (x : float) (l : list Currency) (lines : list string) : Prop :=
  Forall2 (fun c s => convert repr_other c x = Ok s) l lines.

(** The widgets as [create_widgets] leaves them: nothing listed, nothing
    typed, combobox, button and result text disabled. *)
Definition created_form : ConversionForm :=
  mkForm [] disabled "" "" disabled disabled "" [].

(** The mapping that the parser returns for [example_payload]. *)
Definition example_mapping : currency_map :=
  [(PStr "Germany",
    [euro;
     mkCurrency (PStr "Germany") (PStr "Other")
       (PFloat (float_of_decimal false 11 (-1)))])].

(** The errors of [float] and of [convert]: those of [float] on the entry
    text or the rate, and those of [str] on the currency name. *)
Definition coercion_errors : list exn :=
  [ValueError; TypeError; OverflowError; RecursionError].

(** * Properties *)

(** ** Exceptions and results *)

Lemma bind_Ok_inv {A B : Type} (m : result A) (k : A -> result B) (b : B) :
  bind m k = Ok b -> exists a, m = Ok a /\ k a = Ok b.
Proof.
  destruct m as [a | e]; simpl; intros H; [eauto | discriminate].
Qed.

Lemma handle_request_errors_Ok {A B : Type} (func : A -> result B) x v :
  handle_request_errors func x = Ok v <-> func x = Ok v.
Proof.
  unfold handle_request_errors.
  destruct (func x) as [b | e]; [tauto |].
  split; [| discriminate].
  destruct (isinstance e [HTTPError]); [discriminate |].
  destruct (isinstance e [JSONDecodeError]); [discriminate |].
  destruct (isinstance e [KeyError; IndexError]); discriminate.
Qed.

(** ** The calendar *)

Lemma days_before_year_succ y :
  days_before_year (y + 1) = days_before_year y + (if is_leap y then 366 else 365).
Proof.
  unfold days_before_year, is_leap. cbv zeta.
  replace (y + 1 - 1) with y by lia.
  destruct (Z.eqb_spec (y mod 4) 0), (Z.eqb_spec (y mod 100) 0),
    (Z.eqb_spec (y mod 400) 0); simpl;
    Z.to_euclidean_division_equations; lia.
Qed.

(** [ord2ymd] finds the year whose days include ordinal [n]. *)
Lemma ord2ymd_year y n :
  days_before_year y < n <= days_before_year (y + 1) ->
  d_year (ord2ymd n) = y.
Proof.
  intros H.
  assert (E : d_year (ord2ymd n) =
              let n0 := n - 1 in
              let n100 := n0 mod DI400Y / DI100Y in
              let n1 := n0 mod DI400Y mod DI100Y mod DI4Y / 365 in
              let y0 := n0 / DI400Y * 400 + 1 + n100 * 100
                        + n0 mod DI400Y mod DI100Y / DI4Y * 4 + n1 in
              if (n1 =? 4) || (n100 =? 4) then y0 - 1 else y0).
  { unfold ord2ymd. cbv zeta.
    destruct (_ || _); [reflexivity |].
    destruct (_ <? _); reflexivity. }
  rewrite E. clear E.
  unfold days_before_year, DI400Y, DI100Y, DI4Y in *. cbv zeta in *.
  replace (y + 1 - 1) with y in H by lia.
  destruct (_ || _) eqn:E; Z.to_euclidean_division_equations; lia.
Qed.

Lemma days_before_month_first_quarter y m d :
  1 <= m <= 3 -> 1 <= d <= days_in_month y m ->
  1 <= days_before_month y m + d <= 91.
Proof.
  intros Hm.
  assert (C : m = 1 \/ m = 2 \/ m = 3) by lia.
  unfold days_before_month.
  destruct C as [-> | [-> | ->]];
    cbv beta iota delta [DAYS_BEFORE_MONTH days_in_month Z.ltb Z.compare
                         Pos.compare Pos.compare_cont andb];
    destruct (is_leap y); lia.
Qed.

(** A year before a day of January to March lies in the year before, leap
    years or not. *)
Lemma sub_days_one_year t :
  valid_datetime t -> 2 <= year t -> month t <= 3 ->
  exists t', sub_days t ONE_YEAR_IN_DAYS = Ok t' /\ year t' = year t - 1.
Proof.
  intros (((Hy1 & Hy2) & (Hm1 & Hm2) & Hd) & _) Hy Hm. simpl in *.
  unfold MINYEAR, MAXYEAR in *.
  pose proof (days_before_month_first_quarter (year t) (month t) (day t)
                (conj Hm1 Hm) Hd) as Hk.
  pose proof (days_before_year_succ (year t - 1)) as Hs.
  replace (year t - 1 + 1) with (year t) in Hs by lia.
  assert (Hlo : 0 <= days_before_year (year t - 1)).
  { unfold days_before_year. cbv zeta. Z.to_euclidean_division_equations; lia. }
  assert (Hhi : days_before_year (year t) + 91 <= MAXORDINAL).
  { unfold days_before_year, MAXORDINAL. cbv zeta.
    Z.to_euclidean_division_equations; lia. }
  assert (Hin : days_before_year (year t - 1)
                < ymd2ord (year t) (month t) (day t) - ONE_YEAR_IN_DAYS
                <= days_before_year (year t - 1 + 1)).
  { replace (year t - 1 + 1) with (year t) by lia.
    unfold ymd2ord, ONE_YEAR_IN_DAYS.
    destruct (is_leap (year t - 1)); lia. }
  unfold sub_days.
  replace ((0 <? ymd2ord (year t) (month t) (day t) - ONE_YEAR_IN_DAYS)
           && (ymd2ord (year t) (month t) (day t) - ONE_YEAR_IN_DAYS
               <=? MAXORDINAL)) with true.
  - eexists. split; [reflexivity |]. simpl.
    apply ord2ymd_year. exact Hin.
  - symmetry. apply andb_true_iff. split.
    + apply Z.ltb_lt. lia.
    + apply Z.leb_le. unfold ymd2ord, ONE_YEAR_IN_DAYS in *. lia.
Qed.

(** ** The body of a response *)

Lemma json_decoded response v :
  body_json response = Some v -> json response = Ok v.
Proof.
  unfold body_json, json. destruct (body response); congruence.
Qed.

Lemma json_Ok_inv response v :
  json response = Ok v -> body_json response = Some v.
Proof.
  unfold body_json, json. destruct (body response); congruence.
Qed.

(** ** The model on known values *)

(** [float("0.94")] is [0x1.e147ae147ae14p-1], and the product with [100.0]
    is [94.0] exactly. *)
Example float_of_string_0_94 :
  float_of_string "0.94" = Some (S754_finite false 8466767299456532 (-53)) /\
  float_mul usd_100 rate_0_94 = float_of_decimal false 94 0.
Proof. split; reflexivity. Qed.

Example float_of_string_forms :
  float_of_string " 1_000.5 " = Some (float_of_decimal false 10005 (-1)) /\
  float_of_string "1e5" = Some (float_of_decimal false 100000 0) /\
  float_of_string "-Infinity" = Some (S754_infinity true) /\
  float_of_string "nan" = Some S754_nan /\
  float_of_string "" = None /\
  float_of_string "1e" = None /\
  float_of_string "1__0" = None /\
  float_of_string "0x10" = None /\
  float_of_string "12 3" = None.
Proof. repeat split. Qed.

Example format_2f_values :
  format_2f (float_of_decimal false 1234567891 (-3)) = "1,234,567.89" /\
  format_2f (float_of_decimal true 1234567891 (-3)) = "-1,234,567.89" /\
  format_2f (float_of_decimal false 125 (-3)) = "0.12" /\
  format_2f (float_of_decimal false 375 (-3)) = "0.38" /\
  format_2f (float_of_decimal false 999995 (-3)) = "1,000.00" /\
  format_2f (float_of_decimal false 1 23)
  = "99,999,999,999,999,991,611,392.00".
Proof. repeat split. Qed.

Example strptime_Ymd_values :
  strptime_Ymd "2023-09-30" = Ok (mkdatetime 2023 9 30 0 0 0 0) /\
  strptime_Ymd "2024-2-29" = Ok (mkdatetime 2024 2 29 0 0 0 0) /\
  strptime_Ymd "2023-02-29" = Raise ValueError /\
  strptime_Ymd "2023-09-30T00:00" = Raise ValueError /\
  strptime_Ymd "999-12-31" = Raise ValueError.
Proof. repeat split. Qed.

Example ord2ymd_values :
  ord2ymd (ymd2ord 2024 2 29) = mkdate 2024 2 29 /\
  ord2ymd (ymd2ord 2024 12 31) = mkdate 2024 12 31 /\
  ymd2ord 9999 12 31 = MAXORDINAL /\
  ymd2ord 1 1 1 = 1 /\
  sub_days (mkdatetime 2021 1 1 8 0 0 0) ONE_YEAR_IN_DAYS
  = Ok (mkdatetime 2020 1 2 8 0 0 0) /\
  sub_days (mkdatetime 2024 3 31 8 0 0 0) ONE_YEAR_IN_DAYS
  = Ok (mkdatetime 2023 4 1 8 0 0 0).
Proof. repeat split. Qed.

(** Outside the years of four digits the resolver raises: the string of
    the year is too short for [%Y], or the year before does not exist. *)
Example find_last_quarter_date_early_years :
  find_last_quarter_date (mkWorld (mkdatetime 999 11 4 10 0 0 0) no_network)
  = Raise ValueError /\
  find_last_quarter_date (mkWorld (mkdatetime 1 1 4 10 0 0 0) no_network)
  = Raise OverflowError.
Proof. split; vm_compute; reflexivity. Qed.

(** What the wrapper does not name goes through it: a record date that is
    no ISO date is a [ValueError], a payload of another shape a
    [TypeError].  A status outside 400 to 599 is not an error. *)
Example parse_treasury_response_other_errors :
  parse_treasury_response november_2023
    (response_with [treasury_row "30/09/2023" "Germany" "Euro" (PStr "0.94")])
  = Raise ValueError /\
  parse_treasury_response november_2023
    (mkResponse 200 (decoded (PList [])))
  = Raise TypeError /\
  parse_treasury_response november_2023
    (mkResponse 304 (decoded (PDict [("data", PList [])])))
  = Ok [].
Proof. repeat split. Qed.

(** A row of another date that lacks a field fails the parse all the same:
    the four fields are read before the date is compared. *)
Example parse_treasury_response_stale_row_missing_field :
  parse_treasury_response november_2023
    (response_with [PDict [("record_date", PStr "2023-06-30");
                           ("country", PStr "France")]])
  = Raise BusinessLogicException.
Proof. reflexivity. Qed.

(** [get_currency_data] turns the error of the fetch client into the error
    of the business layer. *)
Example get_currency_data_no_network :
  get_currency_data november_2023 = Raise BusinessLogicException.
Proof. reflexivity. Qed.

Lemma date_eqb_eq a b : date_eqb a b = true <-> a = b.
Proof.
  destruct a as [y m d], b as [y' m' d']. unfold date_eqb. simpl.
  rewrite !andb_true_iff, !Z.eqb_eq.
  split; [intros [[-> ->] ->]; reflexivity | intros [= -> -> ->]; auto].
Qed.

Lemma count_from_spec n :
  forall y0 y, y0 <= y < y0 + Z.of_nat n -> In y (count_from n y0).
Proof.
  induction n as [| n IH]; intros y0 y H; [lia |].
  cbn [count_from]. destruct (Z.eq_dec y0 y) as [-> | Hne].
  - left. reflexivity.
  - right. apply IH. lia.
Qed.

Lemma four_digit_years_spec y :
  1000 <= y <= 9999 -> In y four_digit_years.
Proof.
  intros H. unfold four_digit_years. apply count_from_spec. lia.
Qed.

Lemma list_ascii_of_string_app s1 s2 :
  list_ascii_of_string (s1 ++ s2)
  = list_ascii_of_string s1 ++ list_ascii_of_string s2.
Proof.
  induction s1 as [| c s1 IH]; simpl; [reflexivity |].
  rewrite IH. reflexivity.
Qed.

Lemma year_digits_all_ok : forallb year_digits_ok four_digit_years = true.
Proof. vm_compute. reflexivity. Qed.

(** The fields that [strptime] finds after a year of four digits. *)
Lemma match_Ymd_four_digits y suffix :
  1000 <= y <= 9999 ->
  match_Ymd (str_of_int y ++ String "-" suffix)
  = match parse_month (list_ascii_of_string suffix) with
    | Some (m, rest) =>
        match parse_day rest with
        | Some d => Some (y, m, d)
        | None => None
        end
    | None => None
    end.
Proof.
  intros H.
  pose proof (proj1 (forallb_forall _ _) year_digits_all_ok y
                (four_digit_years_spec y H)) as C.
  unfold year_digits_ok in C. unfold match_Ymd.
  rewrite list_ascii_of_string_app.
  destruct (list_ascii_of_string (str_of_int y))
    as [| a [| b [| c [| d [| ? ?]]]]]; try discriminate C.
  rewrite !andb_true_iff in C. destruct C as [Hd Hy].
  apply Z.eqb_eq in Hy.
  cbn [app list_ascii_of_string].
  replace (is_digit a && is_digit b && is_digit c && is_digit d) with true
    by (symmetry; rewrite !andb_true_iff; exact Hd).
  rewrite Hy. reflexivity.
Qed.

Lemma strptime_Ymd_four_digits y suffix m rest d :
  1000 <= y <= 9999 ->
  parse_month (list_ascii_of_string suffix) = Some (m, rest) ->
  parse_day rest = Some d ->
  (d <=? days_in_month y m) = true ->
  strptime_Ymd (str_of_int y ++ String "-" suffix)
  = Ok (mkdatetime y m d 0 0 0 0).
Proof.
  intros H Hm Hd Hdim. unfold strptime_Ymd.
  rewrite (match_Ymd_four_digits y suffix H), Hm, Hd, Hdim.
  replace (MINYEAR <=? y) with true; [reflexivity |].
  symmetry. apply Z.leb_le. unfold MINYEAR. lia.
Qed.

(** With a four-digit year, the f-string and [strptime] give back the date
    that was written. *)
Lemma strptime_resolver_string y :
  1000 <= y <= 9999 ->
  (t <- strptime_Ymd (str_of_int y ++ "-12-31")%string ;; Ok (date_of t))
  = Ok (mkdate y 12 31) /\
  (t <- strptime_Ymd (str_of_int y ++ "-03-31")%string ;; Ok (date_of t))
  = Ok (mkdate y 3 31) /\
  (t <- strptime_Ymd (str_of_int y ++ "-06-30")%string ;; Ok (date_of t))
  = Ok (mkdate y 6 30) /\
  (t <- strptime_Ymd (str_of_int y ++ "-09-30")%string ;; Ok (date_of t))
  = Ok (mkdate y 9 30).
Proof.
  intros H. repeat split.
  - rewrite (strptime_Ymd_four_digits y "12-31" 12 ["3"; "1"]%char 31 H);
      reflexivity.
  - rewrite (strptime_Ymd_four_digits y "03-31" 3 ["3"; "1"]%char 31 H);
      reflexivity.
  - rewrite (strptime_Ymd_four_digits y "06-30" 6 ["3"; "0"]%char 30 H);
      reflexivity.
  - rewrite (strptime_Ymd_four_digits y "09-30" 9 ["3"; "0"]%char 30 H);
      reflexivity.
Qed.

(** ** The quarter-end resolver *)

(** Closed side conditions: evaluate and read off. *)
Ltac by_computation := repeat split; vm_compute; easy.

Section Resolver.

Variable w : World.
Let today := now w.

Hypothesis today_valid : valid_datetime today.

(** The year that the resolver writes into its string has four digits. *)
Hypothesis four_digits : 1001 <= year today.

Lemma find_last_quarter_date_eq :
  find_last_quarter_date w
  = Ok (quarter_end_table (year today) (month today)).
Proof.
  pose proof today_valid as (((Hy1 & Hy2) & (Hm1 & Hm2) & Hd) & _).
  simpl in Hy1, Hy2, Hm1, Hm2, Hd. unfold MINYEAR, MAXYEAR in *.
  unfold find_last_quarter_date, quarter_end_table,
    APRIL, JULY, OCTOBER, DECEMBER.
  fold today.
  destruct (Z.ltb_spec (month today) 4) as [H4 | H4].
  - destruct (Z.leb_spec (month today) 3) as [_ | ?]; [| lia].
    destruct (sub_days_one_year today today_valid) as (t' & -> & Hy');
      [lia | lia |].
    simpl. rewrite Hy'.
    apply (strptime_resolver_string (year today - 1)). lia.
  - destruct (Z.leb_spec (month today) 3) as [? | _]; [lia |].
    pose proof (strptime_resolver_string (year today)) as (_ & S3 & S6 & S9);
      [lia |].
    destruct (Z.ltb_spec (month today) 7), (Z.leb_spec (month today) 6);
      try lia; [exact S3 |].
    destruct (Z.ltb_spec (month today) 10), (Z.leb_spec (month today) 9);
      try lia; [exact S6 |].
    destruct (Z.leb_spec (month today) 12); [exact S9 | lia].
Qed.

End Resolver.

(** C1. Whatever valid date with a four-digit year the clock shows, the
    resolver returns the entry of the fixed quarter table: 31 December of
    the year before for January to March, 31 March, 30 June and 30 September
    of the same year for the three quarters after. *)
Theorem find_last_quarter_date_table :
  forall w : World,
    valid_datetime (now w) ->
    1001 <= year (now w) ->
    find_last_quarter_date w
    = Ok (quarter_end_table (year (now w)) (month (now w))).
Proof. exact find_last_quarter_date_eq. Qed.

Lemma find_last_quarter_date_table_witness :
  find_last_quarter_date (mkWorld (mkdatetime 2021 1 1 0 0 0 0) no_network)
  = Ok (mkdate 2020 12 31).
Proof.
  apply (find_last_quarter_date_table
           (mkWorld (mkdatetime 2021 1 1 0 0 0 0) no_network)).
  - by_computation.
  - by_computation.
Defined.

Lemma strptime_Ymd_raises s e :
  strptime_Ymd s = Raise e -> e = ValueError.
Proof.
  unfold strptime_Ymd.
  destruct (match_Ymd s) as [[[y m] d] |]; [| congruence].
  destruct (_ && _); congruence.
Qed.

Lemma sub_days_raises t n e :
  sub_days t n = Raise e -> e = OverflowError.
Proof.
  unfold sub_days. destruct (_ && _); congruence.
Qed.

Lemma quarter_end_table_is_quarter_end y m :
  is_quarter_end (quarter_end_table y m) = true.
Proof.
  unfold quarter_end_table.
  destruct (m <=? 3); [reflexivity |].
  destruct (m <=? 6); [reflexivity |].
  destruct (m <=? 9); reflexivity.
Qed.

(** With a month from 1 to 12 the last branch of the resolver is not taken,
    and what the other branches may raise is not the resolver's own error. *)
Lemma find_last_quarter_date_not_invariant_violation w :
  1 <= month (now w) <= 12 ->
  find_last_quarter_date w <> Raise BusinessLogicException.
Proof.
  intros [H1 H12]. unfold find_last_quarter_date, DECEMBER.
  destruct (_ <? APRIL).
  { destruct (sub_days _ _) as [t' | e] eqn:S; simpl.
    - destruct (strptime_Ymd _) as [t | e] eqn:P; simpl; [discriminate |].
      apply strptime_Ymd_raises in P. congruence.
    - apply sub_days_raises in S. congruence. }
  destruct (_ <? JULY).
  { destruct (strptime_Ymd _) as [t | e] eqn:P; simpl; [discriminate |].
    apply strptime_Ymd_raises in P. congruence. }
  destruct (_ <? OCTOBER).
  { destruct (strptime_Ymd _) as [t | e] eqn:P; simpl; [discriminate |].
    apply strptime_Ymd_raises in P. congruence. }
  destruct (Z.leb_spec (month (now w)) 12); [| lia].
  destruct (strptime_Ymd _) as [t | e] eqn:P; simpl; [discriminate |].
  apply strptime_Ymd_raises in P. congruence.
Qed.

(** C8. For a clock that shows a valid date (so a month from 1 to 12) with a
    four-digit year, the resolver returns the last day of a quarter, and it
    does not raise its invariant-violation error. *)
Theorem find_last_quarter_date_error_unreachable :
  forall w : World,
    valid_datetime (now w) ->
    1001 <= year (now w) ->
    (exists q, find_last_quarter_date w = Ok q /\ is_quarter_end q = true) /\
    find_last_quarter_date w <> Raise BusinessLogicException.
Proof.
  intros w Hv Hy. split.
  - eexists. split; [apply find_last_quarter_date_eq; assumption |].
    apply quarter_end_table_is_quarter_end.
  - apply find_last_quarter_date_not_invariant_violation.
    destruct Hv as ((_ & Hm & _) & _). exact Hm.
Qed.

Lemma find_last_quarter_date_error_unreachable_witness :
  (exists q,
      find_last_quarter_date (mkWorld (mkdatetime 2023 9 14 8 30 0 0) no_network)
      = Ok q /\ is_quarter_end q = true) /\
  find_last_quarter_date (mkWorld (mkdatetime 2023 9 14 8 30 0 0) no_network)
  <> Raise BusinessLogicException.
Proof.
  apply (find_last_quarter_date_error_unreachable
           (mkWorld (mkdatetime 2023 9 14 8 30 0 0) no_network));
    by_computation.
Defined.

(** The resolver looks at the date on the clock and at nothing else. *)
Lemma find_last_quarter_date_same_date w1 w2 :
  date_of (now w1) = date_of (now w2) ->
  find_last_quarter_date w1 = find_last_quarter_date w2.
Proof.
  destruct w1 as [[y1 m1 d1 h1 mi1 s1 u1] g1], w2 as [[y2 m2 d2 h2 mi2 s2 u2] g2].
  unfold date_of. cbn [now year month day]. intros [= -> -> ->].
  unfold find_last_quarter_date, sub_days.
  cbn [now year month day hour minute second microsecond].
  destruct (_ <? APRIL); [| reflexivity].
  destruct (_ && _); cbn [bind year]; reflexivity.
Qed.

(** C9, as amended. The resolver has no date parameter: it reads the wall
    clock itself.  Its result is a function of the date that the clock
    shows: two calls that see the same date, at whatever time of day and
    with whatever network, return the same result. *)
Theorem find_last_quarter_date_function_of_clock_date :
  forall w1 w2 : World,
    date_of (now w1) = date_of (now w2) ->
    find_last_quarter_date w1 = find_last_quarter_date w2.
Proof. exact find_last_quarter_date_same_date. Qed.

Lemma find_last_quarter_date_function_of_clock_date_witness :
  find_last_quarter_date (mkWorld (mkdatetime 2023 11 4 9 15 0 0) no_network)
  = find_last_quarter_date
      (mkWorld (mkdatetime 2023 11 4 23 59 59 999999)
               (fun _ _ => Ok (mkResponse 200 not_json))).
Proof.
  apply (find_last_quarter_date_function_of_clock_date
           (mkWorld (mkdatetime 2023 11 4 9 15 0 0) no_network)
           (mkWorld (mkdatetime 2023 11 4 23 59 59 999999)
                    (fun _ _ => Ok (mkResponse 200 not_json)))).
  reflexivity.
Defined.

(** C9, as stated, fails: the resolver is called without arguments, and two
    such calls differ in their result when the wall clock has moved to
    another quarter in between. *)
Lemma find_last_quarter_date_reads_wall_clock :
  exists w1 w2 : World,
    requests_get w1 = requests_get w2 /\
    find_last_quarter_date w1 <> find_last_quarter_date w2.
Proof.
  exists (mkWorld (mkdatetime 2023 9 30 12 0 0 0) no_network),
         (mkWorld (mkdatetime 2023 10 1 12 0 0 0) no_network).
  split; [reflexivity |]. vm_compute. discriminate.
Qed.

(** ** The fetch client *)

Lemma fetch_treasury_data_request_failure w e :
  requests_get w url params = Raise e ->
  issubclass e RequestException = true ->
  fetch_treasury_data w = Raise DalException.
Proof.
  intros Hget Hsub. unfold fetch_treasury_data. rewrite Hget.
  destruct e; vm_compute in Hsub; try discriminate Hsub; reflexivity.
Qed.

(** No class of [requests] comes out of the fetch client. *)
Lemma fetch_treasury_data_no_transport_error w e :
  fetch_treasury_data w = Raise e -> issubclass e RequestException = false.
Proof.
  unfold fetch_treasury_data.
  destruct (requests_get w url params) as [r | e0]; [discriminate |].
  destruct e0; vm_compute; intros [= <-]; reflexivity.
Qed.

(** C5. Whenever [requests.get] fails with an instance of
    [RequestException] (a timeout, a connection failure or any other
    request failure), the fetch client raises [DalException], which is not a
    class of [requests]. *)
Theorem fetch_treasury_data_uniform_error :
  forall (w : World) (e : exn),
    requests_get w url params = Raise e ->
    issubclass e RequestException = true ->
    fetch_treasury_data w = Raise DalException /\
    issubclass DalException RequestException = false.
Proof.
  intros w e Hget Hsub. split; [| reflexivity].
  exact (fetch_treasury_data_request_failure w e Hget Hsub).
Qed.

Lemma fetch_treasury_data_uniform_error_witness :
  fetch_treasury_data (mkWorld (mkdatetime 2023 11 4 9 15 0 0)
                               (fun _ _ => Raise ReadTimeout))
  = Raise DalException /\
  issubclass DalException RequestException = false.
Proof.
  apply (fetch_treasury_data_uniform_error
           (mkWorld (mkdatetime 2023 11 4 9 15 0 0)
                    (fun _ _ => Raise ReadTimeout)) ReadTimeout);
    reflexivity.
Defined.

(** The three failures that the client tells apart end the same way. *)
Example fetch_treasury_data_three_failures :
  let w e := mkWorld (mkdatetime 2023 11 4 9 15 0 0) (fun _ _ => Raise e) in
  fetch_treasury_data (w Timeout) = Raise DalException /\
  fetch_treasury_data (w ConnectionError) = Raise DalException /\
  fetch_treasury_data (w RequestException) = Raise DalException.
Proof. repeat split. Qed.

(** ** The parser: errors *)

Lemma isinstance_underlying e :
  isinstance e underlying_errors
  = isinstance e [HTTPError] || isinstance e [JSONDecodeError]
    || isinstance e [KeyError; IndexError].
Proof.
  unfold isinstance, underlying_errors. simpl existsb.
  rewrite !orb_false_r, !orb_assoc. reflexivity.
Qed.

(** What the wrapper does with an error of one of the classes it names. *)
Lemma handle_request_errors_translates {A B : Type} (func : A -> result B) x e :
  func x = Raise e ->
  isinstance e underlying_errors = true ->
  handle_request_errors func x = Raise BusinessLogicException.
Proof.
  intros Hf He. unfold handle_request_errors. rewrite Hf.
  rewrite isinstance_underlying in He.
  destruct (isinstance e [HTTPError]); [reflexivity |].
  destruct (isinstance e [JSONDecodeError]); [reflexivity |].
  destruct (isinstance e [KeyError; IndexError]); [reflexivity | discriminate].
Qed.

(** No error of a class that the wrapper names comes out of it. *)
Lemma handle_request_errors_no_leak {A B : Type} (func : A -> result B) x :
  match handle_request_errors func x with
  | Ok _ => True
  | Raise e => isinstance e underlying_errors = false
  end.
Proof.
  unfold handle_request_errors.
  destruct (func x) as [v | e]; [exact I |].
  destruct (isinstance e [HTTPError]) eqn:E1; [reflexivity |].
  destruct (isinstance e [JSONDecodeError]) eqn:E2; [reflexivity |].
  destruct (isinstance e [KeyError; IndexError]) eqn:E3; [reflexivity |].
  rewrite isinstance_underlying, E1, E2, E3. reflexivity.
Qed.

Lemma parse_rows_app q d rows1 rows2 :
  parse_rows q d (rows1 ++ rows2)
  = (d' <- parse_rows q d rows1 ;; parse_rows q d' rows2).
Proof.
  revert d. induction rows1 as [| row rows1 IH]; intros d; simpl.
  - reflexivity.
  - destruct (parse_row q d row) as [d' | e]; simpl; [apply IH | reflexivity].
Qed.

Lemma row_missing_field_KeyError row :
  row_missing_field row -> row_fields row = Raise KeyError.
Proof.
  intros (entries & -> & [Hd | [(s & t & Hd & Hs) Hf]]);
    unfold row_fields, subscript; rewrite Hd; simpl; [reflexivity |].
  rewrite Hs. simpl.
  destruct (lookup "country" entries); simpl;
    [| reflexivity].
  destruct (lookup "currency" entries); simpl;
    [| reflexivity].
  destruct (lookup "exchange_rate" entries); simpl;
    [| reflexivity].
  destruct Hf as [Hf | [Hf | Hf]]; discriminate Hf.
Qed.

Lemma raise_for_status_error response :
  400 <= status_code response < 600 ->
  raise_for_status response = Raise HTTPError.
Proof.
  intros H. unfold raise_for_status.
  destruct (Z.leb_spec 400 (status_code response)); [| lia].
  destruct (Z.ltb_spec (status_code response) 500); [reflexivity |].
  destruct (Z.leb_spec 500 (status_code response)); [| lia].
  destruct (Z.ltb_spec (status_code response) 600); [reflexivity | lia].
Qed.

(** Each listed failure makes the undecorated parser raise an error of a
    class that the wrapper names. *)
Lemma parser_failure_body w response :
  parser_failure w response ->
  exists e, parse_treasury_response_body w response = Raise e /\
            isinstance e underlying_errors = true.
Proof.
  unfold parse_treasury_response_body.
  intros [Hs | Hs Hj | entries q Hs Hj Hq Hd
          | v q data before d row rest Hs Hj Hq Hd Hi Hb Hr].
  - rewrite (raise_for_status_error _ Hs). exists HTTPError. split; reflexivity.
  - rewrite Hs. unfold json. rewrite Hj. exists JSONDecodeError.
    split; reflexivity.
  - rewrite Hs, (json_decoded _ _ Hj). simpl. rewrite Hq. simpl.
    rewrite Hd. exists KeyError. split; reflexivity.
  - rewrite Hs, (json_decoded _ _ Hj). cbn [bind]. rewrite Hq. cbn [bind].
    rewrite Hd. cbn [bind]. rewrite Hi. cbn [bind].
    rewrite parse_rows_app, Hb. cbn [bind parse_rows]. unfold parse_row.
    rewrite (row_missing_field_KeyError _ Hr). exists KeyError.
    split; reflexivity.
Qed.

(** ** Keys of the dictionary *)

Lemma keyval_eqb_refl a : keyval_eqb a a = true.
Proof.
  destruct a; simpl; auto.
  - apply String.eqb_refl.
  - apply Qeq_bool_iff. reflexivity.
  - destruct negative; reflexivity.
Qed.

Lemma keyval_eqb_sym a b : keyval_eqb a b = true -> keyval_eqb b a = true.
Proof.
  destruct a, b; simpl; try discriminate; auto.
  - rewrite String.eqb_sym. auto.
  - rewrite !Qeq_bool_iff. intros H. symmetry. exact H.
  - destruct negative, negative0; auto.
Qed.

Lemma keyval_eqb_trans a b c :
  keyval_eqb a b = true -> keyval_eqb b c = true -> keyval_eqb a c = true.
Proof.
  destruct a, b; simpl; try discriminate; destruct c; simpl;
    try discriminate; auto.
  - rewrite !String.eqb_eq. congruence.
  - rewrite !Qeq_bool_iff. intros H1 H2. rewrite H1. exact H2.
  - destruct negative, negative0, negative1; auto.
Qed.

Lemma key_eqb_refl a : key_of a <> None -> key_eqb a a = true.
Proof.
  unfold key_eqb. destruct (key_of a); [intros _ | congruence].
  apply keyval_eqb_refl.
Qed.

Lemma key_eqb_sym a b : key_eqb a b = true -> key_eqb b a = true.
Proof.
  unfold key_eqb. destruct (key_of a), (key_of b); try discriminate.
  apply keyval_eqb_sym.
Qed.

Lemma key_eqb_trans a b c :
  key_eqb a b = true -> key_eqb b c = true -> key_eqb a c = true.
Proof.
  unfold key_eqb. destruct (key_of a), (key_of b); try discriminate;
    destruct (key_of c); try discriminate.
  apply keyval_eqb_trans.
Qed.

(** Equal keys are found by the same probes. *)
Lemma key_eqb_compat a b k :
  key_eqb a b = true -> key_eqb a k = key_eqb b k.
Proof.
  intros Hab.
  destruct (key_eqb a k) eqn:Ha, (key_eqb b k) eqn:Hb; auto.
  - rewrite <- Hb. symmetry.
    exact (key_eqb_trans _ _ _ (key_eqb_sym _ _ Hab) Ha).
  - rewrite <- Ha. exact (key_eqb_trans _ _ _ Hab Hb).
Qed.

(** ** The parser: one row *)

Lemma dict_present_upsert d country c :
  existsb (fun kv => key_eqb (fst kv) country) d = true ->
  exists entry,
    dict_getitem d country = Ok entry /\
    dict_setitem d country (entry ++ [c]) = upsert d country c.
Proof.
  induction d as [| [k v] rest IH]; simpl; [discriminate |].
  destruct (key_eqb k country) eqn:E; simpl.
  - intros _. exists v. split; reflexivity.
  - intros H. destruct (IH H) as (entry & Hg & Hs).
    exists entry. split; [exact Hg |]. rewrite Hs. reflexivity.
Qed.

Lemma dict_absent_upsert d country c :
  existsb (fun kv => key_eqb (fst kv) country) d = false ->
  dict_setitem d country [c] = upsert d country c.
Proof.
  induction d as [| [k v] rest IH]; simpl; [reflexivity |].
  destruct (key_eqb k country) eqn:E; simpl; [discriminate |].
  intros H. rewrite (IH H). reflexivity.
Qed.

(** The loop body on a row whose fields have been read: a row of another
    date leaves the dictionary as it is, a row of the quarter end goes in
    through [upsert], and an unhashable country is a [TypeError]. *)
Lemma parse_row_fields q d row rd country currency rate :
  row_fields row = Ok (rd, country, currency, rate) ->
  parse_row q d row
  = if date_eqb rd q then
      match key_of country with
      | Some _ => Ok (upsert d country (mkCurrency country currency rate))
      | None => Raise TypeError
      end
    else Ok d.
Proof.
  intros H. unfold parse_row. rewrite H. cbn [bind].
  destruct (date_eqb rd q); [| reflexivity].
  unfold dict_contains. destruct (key_of country); [| reflexivity].
  cbn [bind].
  destruct (existsb _ d) eqn:E; unfold Currency_init; cbn [bind].
  - destruct (dict_present_upsert d country
                (mkCurrency country currency rate) E) as (entry & Hg & Hs).
    rewrite Hg. cbn [bind]. rewrite Hs. reflexivity.
  - rewrite (dict_absent_upsert d country _ E). reflexivity.
Qed.

Lemma append_result_nil r : append_result r [] = r.
Proof. destruct r; simpl; [rewrite app_nil_r |]; reflexivity. Qed.

Lemma append_result_app r l1 l2 :
  append_result (append_result r l1) l2 = append_result r (l1 ++ l2).
Proof.
  destruct r as [v | e]; simpl.
  - rewrite app_assoc. reflexivity.
  - destruct l1; simpl; reflexivity.
Qed.

Lemma dict_getitem_upsert d country c k :
  dict_getitem (upsert d country c) k
  = append_result (dict_getitem d k)
                  (if key_eqb country k then [c] else []).
Proof.
  induction d as [| [k0 v] rest IH]; simpl.
  - destruct (key_eqb country k); reflexivity.
  - destruct (key_eqb k0 country) eqn:E; simpl.
    + rewrite <- (key_eqb_compat _ _ k E).
      destruct (key_eqb k0 k); simpl; [reflexivity |].
      rewrite append_result_nil. reflexivity.
    + destruct (key_eqb k0 k) eqn:E'; [| exact IH].
      destruct (key_eqb country k) eqn:E''; simpl.
      * rewrite (key_eqb_trans _ _ _ E' (key_eqb_sym _ _ E'')) in E.
        discriminate.
      * rewrite app_nil_r. reflexivity.
Qed.

Lemma upsert_well_formed d country currency rate :
  key_of country <> None ->
  entries_well_formed d ->
  entries_well_formed (upsert d country (mkCurrency country currency rate)).
Proof.
  intros Hk. unfold entries_well_formed.
  induction d as [| [k v] rest IH]; simpl; intros H.
  - constructor; [| constructor]. simpl. split; [discriminate |].
    constructor; [| constructor]. simpl. apply key_eqb_refl. exact Hk.
  - inversion H as [| ? ? [Hne Hall] Hrest]; subst. simpl in *.
    destruct (key_eqb k country) eqn:E.
    + constructor; [| exact Hrest]. simpl. split.
      * destruct v; discriminate.
      * apply Forall_app. split; [exact Hall |].
        constructor; [exact E | constructor].
    + constructor; [split; assumption | apply IH; exact Hrest].
Qed.

(** ** The parser: the loop *)

(** The loop runs to its end when every row can be read and the countries
    of the rows of the quarter end are hashable; a lookup in the result
    finds what was there before, then the selected rows. *)
Lemma parse_rows_selected q rows fields :
  fields_of rows fields ->
  Forall (fun f => date_eqb (field_date f) q = true ->
                   key_of (field_country f) <> None) fields ->
  forall d0, exists d,
    parse_rows q d0 rows = Ok d /\
    forall k, dict_getitem d k
              = append_result (dict_getitem d0 k) (selected_rows q k fields).
Proof.
  induction 1 as [| row [[[rd country] currency] rate] rows fields Hrow _ IH];
    intros Hk d0.
  - exists d0. split; [reflexivity |]. intros k. simpl.
    rewrite append_result_nil. reflexivity.
  - inversion Hk as [| ? ? Hk1 Hk2]; subst. simpl in Hk1.
    cbn [parse_rows]. rewrite (parse_row_fields _ _ _ _ _ _ _ Hrow).
    destruct (date_eqb rd q) eqn:Ed.
    + destruct (key_of country) as [kv |] eqn:Ek;
        [| exfalso; apply Hk1; reflexivity].
      cbn [bind].
      destruct (IH Hk2 (upsert d0 country (mkCurrency country currency rate)))
        as (d & Hd & Hget).
      exists d. split; [exact Hd |]. intros k.
      rewrite Hget, dict_getitem_upsert, append_result_app.
      cbn [selected_rows flat_map]. rewrite Ed. reflexivity.
    + cbn [bind]. destruct (IH Hk2 d0) as (d & Hd & Hget).
      exists d. split; [exact Hd |]. intros k.
      rewrite Hget. cbn [selected_rows flat_map]. rewrite Ed. reflexivity.
Qed.

(** Rows of other dates leave the dictionary untouched. *)
Lemma parse_rows_no_match q rows fields :
  fields_of rows fields ->
  Forall (fun f => date_eqb (field_date f) q = false) fields ->
  forall d0, parse_rows q d0 rows = Ok d0.
Proof.
  induction 1 as [| row [[[rd country] currency] rate] rows fields Hrow _ IH];
    intros Hk d0; [reflexivity |].
  inversion Hk as [| ? ? Hk1 Hk2]; subst. simpl in Hk1.
  cbn [parse_rows]. rewrite (parse_row_fields _ _ _ _ _ _ _ Hrow), Hk1.
  cbn [bind]. apply IH. exact Hk2.
Qed.

Lemma parse_row_well_formed q d row d' :
  parse_row q d row = Ok d' ->
  entries_well_formed d -> entries_well_formed d'.
Proof.
  intros H Hd. unfold parse_row in H.
  destruct (row_fields row) as [[[[rd country] currency] rate] | e] eqn:Hf;
    [| discriminate].
  rewrite <- Hf in H. fold (parse_row q d row) in H.
  rewrite (parse_row_fields _ _ _ _ _ _ _ Hf) in H.
  destruct (date_eqb rd q); [| congruence].
  destruct (key_of country) as [kv |] eqn:Ek; [| discriminate].
  injection H as <-. apply upsert_well_formed; [congruence | exact Hd].
Qed.

Lemma parse_rows_well_formed q rows :
  forall d d', parse_rows q d rows = Ok d' ->
               entries_well_formed d -> entries_well_formed d'.
Proof.
  induction rows as [| row rows IH]; intros d d' H Hd.
  - injection H as <-. exact Hd.
  - cbn [parse_rows] in H. apply bind_Ok_inv in H as (d1 & H1 & H2).
    exact (IH _ _ H2 (parse_row_well_formed _ _ _ _ H1 Hd)).
Qed.

(** The undecorated parser, when the response is a success, its body
    decodes, the quarter end is resolved and [data] can be gone through. *)
Lemma parse_treasury_response_body_rows w response v q data rows :
  raise_for_status response = Ok tt ->
  body_json response = Some v ->
  find_last_quarter_date w = Ok q ->
  subscript v "data" = Ok data ->
  iterate data = Ok rows ->
  parse_treasury_response_body w response = parse_rows q [] rows.
Proof.
  intros Hs Hj Hq Hd Hi. unfold parse_treasury_response_body.
  rewrite Hs, (json_decoded _ _ Hj). cbn [bind]. rewrite Hq. cbn [bind]. rewrite Hd. cbn [bind].
  rewrite Hi. reflexivity.
Qed.

(** A run of the loop that comes to its end has read every row, and has
    hashed the country of every row of the quarter end. *)
Lemma parse_rows_Ok_fields q rows :
  forall d0 d, parse_rows q d0 rows = Ok d ->
  exists fields,
    fields_of rows fields /\
    Forall (fun f => date_eqb (field_date f) q = true ->
                     key_of (field_country f) <> None) fields.
Proof.
  induction rows as [| row rows IH]; intros d0 d H.
  - exists []. split; constructor.
  - cbn [parse_rows] in H. apply bind_Ok_inv in H as (d1 & H1 & H2).
    destruct (IH _ _ H2) as (fields & Hf & Hk).
    destruct (row_fields row) as [[[[rd country] currency] rate] | e] eqn:Hr.
    + exists ((rd, country, currency, rate) :: fields). split.
      * constructor; assumption.
      * constructor; [| exact Hk]. simpl. intros Ed.
        rewrite (parse_row_fields _ _ _ _ _ _ _ Hr), Ed in H1.
        destruct (key_of country); [discriminate | discriminate H1].
    + unfold parse_row in H1. rewrite Hr in H1. discriminate H1.
Qed.

(** What a successful run of the parser has gone through. *)
Lemma parse_treasury_response_Ok_inv w response d :
  parse_treasury_response w response = Ok d ->
  exists v q data rows,
    raise_for_status response = Ok tt /\
    body_json response = Some v /\
    find_last_quarter_date w = Ok q /\
    subscript v "data" = Ok data /\
    iterate data = Ok rows /\
    parse_rows q [] rows = Ok d.
Proof.
  intros H. unfold parse_treasury_response in H.
  apply (proj1 (handle_request_errors_Ok _ _ _)) in H.
  unfold parse_treasury_response_body in H.
  apply bind_Ok_inv in H as ([] & Hs & H).
  apply bind_Ok_inv in H as (v & Hj & H).
  apply bind_Ok_inv in H as (q & Hq & H).
  apply bind_Ok_inv in H as (data & Hd & H).
  apply bind_Ok_inv in H as (rows & Hi & H).
  exists v, q, data, rows. repeat split; try assumption.
  exact (json_Ok_inv _ _ Hj).
Qed.

(** ** The parser: results *)

(** The parser returns a mapping whenever the response is a success whose
    rows can all be read, with hashable countries at the quarter end. *)
Lemma parse_treasury_response_succeeds w response v q data rows fields :
  raise_for_status response = Ok tt ->
  body_json response = Some v ->
  find_last_quarter_date w = Ok q ->
  subscript v "data" = Ok data ->
  iterate data = Ok rows ->
  fields_of rows fields ->
  Forall (fun f => date_eqb (field_date f) q = true ->
                   key_of (field_country f) <> None) fields ->
  exists d, parse_treasury_response w response = Ok d.
Proof.
  intros Hs Hj Hq Hd Hi Hf Hk.
  destruct (parse_rows_selected q rows fields Hf Hk []) as (d & Hp & _).
  exists d. apply handle_request_errors_Ok.
  rewrite (parse_treasury_response_body_rows w response v q data rows
             Hs Hj Hq Hd Hi).
  exact Hp.
Qed.

(** C3. In a mapping that the parser returns, a lookup of any key finds
    exactly the rows of the payload that are dated at the resolved quarter
    end and whose country equals the key, in the order of the payload, and
    finds nothing when there is no such row.  On the payload of the example
    the result has the one key "Germany", with the Euro entry before the
    Other entry, and no key "France". *)
Theorem parse_treasury_response_groups_by_country :
  forall (w : World) (response : Response) (d : currency_map),
    parse_treasury_response w response = Ok d ->
    (exists v q data rows fields,
        body_json response = Some v /\
        find_last_quarter_date w = Ok q /\
        subscript v "data" = Ok data /\
        iterate data = Ok rows /\
        fields_of rows fields /\
        forall k, dict_getitem d k
                  = match selected_rows q k fields with
                    | [] => Raise KeyError
                    | l => Ok l
                    end) /\
    parse_treasury_response november_2023 (response_with example_payload)
    = Ok [(PStr "Germany",
           [mkCurrency (PStr "Germany") (PStr "Euro")
              (PFloat (float_of_decimal false 94 (-2)));
            mkCurrency (PStr "Germany") (PStr "Other")
              (PFloat (float_of_decimal false 11 (-1)))])].
Proof.
  intros w response d H.
  split; [| vm_compute; reflexivity].
  destruct (parse_treasury_response_Ok_inv w response d H)
    as (v & q & data & rows & Hs & Hj & Hq & Hd & Hi & Hp).
  destruct (parse_rows_Ok_fields q rows [] d Hp) as (fields & Hf & Hk).
  destruct (parse_rows_selected q rows fields Hf Hk []) as (d' & Hp' & Hget).
  assert (d' = d) by congruence. subst d'.
  exists v, q, data, rows, fields. repeat split; try assumption.
  intros k. rewrite Hget. simpl.
  destruct (selected_rows q k fields); reflexivity.
Qed.

Lemma parse_treasury_response_groups_by_country_witness :
  let d := [(PStr "Germany",
             [mkCurrency (PStr "Germany") (PStr "Euro")
                (PFloat (float_of_decimal false 94 (-2)));
              mkCurrency (PStr "Germany") (PStr "Other")
                (PFloat (float_of_decimal false 11 (-1)))])] in
  (exists v q data rows fields,
      body_json (response_with example_payload) = Some v /\
      find_last_quarter_date november_2023 = Ok q /\
      subscript v "data" = Ok data /\
      iterate data = Ok rows /\
      fields_of rows fields /\
      forall k, dict_getitem d k
                = match selected_rows q k fields with
                  | [] => Raise KeyError
                  | l => Ok l
                  end) /\
  parse_treasury_response november_2023 (response_with example_payload)
  = Ok d.
Proof.
  apply (parse_treasury_response_groups_by_country
           november_2023 (response_with example_payload)).
  vm_compute. reflexivity.
Defined.

(** In the result for the example, "France" is not a key. *)
Example example_payload_no_France :
  exists d,
    parse_treasury_response november_2023 (response_with example_payload)
    = Ok d /\
    dict_getitem d (PStr "France") = Raise KeyError /\
    map fst d = [PStr "Germany"].
Proof. eexists. repeat split. Qed.

(** C6. For a successful response whose rows can all be read and none of
    which is dated at the resolved quarter end, the parser returns the empty
    mapping; so it does for an empty [data] array. *)
Theorem parse_treasury_response_empty_result :
  forall (w : World) (response : Response) (v : pyval) (q : date)
         (rows : list pyval) (fields : list (date * pyval * pyval * pyval)),
    raise_for_status response = Ok tt ->
    body_json response = Some v ->
    find_last_quarter_date w = Ok q ->
    subscript v "data" = Ok (PList rows) ->
    fields_of rows fields ->
    Forall (fun f => date_eqb (field_date f) q = false) fields ->
    parse_treasury_response w response = Ok [] /\
    parse_treasury_response november_2023 (response_with []) = Ok [].
Proof.
  intros w response v q rows fields Hs Hj Hq Hd Hf Hn.
  split; [| vm_compute; reflexivity].
  apply handle_request_errors_Ok.
  rewrite (parse_treasury_response_body_rows w response v q (PList rows) rows
             Hs Hj Hq Hd eq_refl).
  exact (parse_rows_no_match q rows fields Hf Hn []).
Qed.

Lemma parse_treasury_response_empty_result_witness :
  parse_treasury_response november_2023 (response_with stale_payload) = Ok [] /\
  parse_treasury_response november_2023 (response_with []) = Ok [].
Proof.
  apply (parse_treasury_response_empty_result
           november_2023 (response_with stale_payload)
           (PDict [("data", PList stale_payload)]) (mkdate 2023 9 30)
           stale_payload stale_fields).
  - reflexivity.
  - reflexivity.
  - vm_compute. reflexivity.
  - reflexivity.
  - repeat constructor.
  - repeat constructor.
Defined.

(** The empty array alone, whatever the quarter end. *)
Lemma parse_treasury_response_empty_data w response entries q :
  raise_for_status response = Ok tt ->
  body_json response = Some (PDict entries) ->
  find_last_quarter_date w = Ok q ->
  lookup "data" entries = Some (PList []) ->
  parse_treasury_response w response = Ok [].
Proof.
  intros Hs Hj Hq Hd.
  apply handle_request_errors_Ok.
  rewrite (parse_treasury_response_body_rows w response _ q (PList []) []
             Hs Hj Hq); [reflexivity | | reflexivity].
  simpl. rewrite Hd. reflexivity.
Qed.

(** C7. In every mapping that the parser returns, every key holds a
    non-empty list, and the currencies in it are those of the key's own
    country: a key comes into the mapping with its first currency, and later
    rows of the country are added to its list. *)
Theorem parse_treasury_response_lists_nonempty :
  forall (w : World) (response : Response) (d : currency_map),
    parse_treasury_response w response = Ok d ->
    Forall (fun kv => snd kv <> []) d /\ entries_well_formed d.
Proof.
  intros w response d H.
  assert (Hwf : entries_well_formed d).
  { unfold parse_treasury_response in H.
    apply (proj1 (handle_request_errors_Ok _ _ _)) in H.
    unfold parse_treasury_response_body in H.
    apply bind_Ok_inv in H as (? & _ & H).
    apply bind_Ok_inv in H as (v & _ & H).
    apply bind_Ok_inv in H as (q & _ & H).
    apply bind_Ok_inv in H as (data & _ & H).
    apply bind_Ok_inv in H as (rows & _ & H).
    apply (parse_rows_well_formed q rows [] d H). constructor. }
  split; [| exact Hwf].
  unfold entries_well_formed in Hwf.
  eapply Forall_impl; [| exact Hwf]. intros kv [Hne _]. exact Hne.
Qed.

Lemma parse_treasury_response_lists_nonempty_witness :
  let d := [(PStr "Germany",
             [mkCurrency (PStr "Germany") (PStr "Euro")
                (PFloat (float_of_decimal false 94 (-2)));
              mkCurrency (PStr "Germany") (PStr "Other")
                (PFloat (float_of_decimal false 11 (-1)))])] in
  Forall (fun kv => snd kv <> []) d /\ entries_well_formed d.
Proof.
  apply (parse_treasury_response_lists_nonempty
           november_2023 (response_with example_payload)).
  vm_compute. reflexivity.
Defined.

(** ** Formatting of amounts *)

Lemma string_of_uint_digits d :
  forallb is_digit (list_ascii_of_string (NilEmpty.string_of_uint d)) = true.
Proof. induction d; simpl; auto. Qed.

(** [str(n)] of a natural number is a non-empty string of digits. *)
Lemma str_of_int_digits n :
  0 <= n ->
  list_ascii_of_string (str_of_int n) <> [] /\
  forallb is_digit (list_ascii_of_string (str_of_int n)) = true.
Proof.
  intros Hn. unfold str_of_int.
  destruct n as [| p | p]; [split; [discriminate | reflexivity] | | lia].
  simpl. unfold NilZero.string_of_uint.
  destruct (Pos.to_uint p) eqn:E;
    try (split; [discriminate | rewrite <- E; apply string_of_uint_digits]).
  split; [discriminate | reflexivity].
Qed.

Lemma grouped_rev_group_rev_upto n :
  forall l, (List.length l <= n)%nat -> l <> [] ->
            forallb is_digit l = true ->
            grouped_rev (group_rev l) = true.
Proof.
  induction n as [| n IH]; intros l Hlen Hne Hd.
  - destruct l; [congruence | simpl in Hlen; lia].
  - destruct l as [| a [| b [| c [| d rest]]]]; [congruence | | | |];
      simpl in Hd; rewrite ?andb_true_iff in Hd.
    + simpl. tauto.
    + simpl. rewrite andb_true_iff. tauto.
    + simpl. rewrite !andb_true_iff. tauto.
    + destruct Hd as (Ha & Hb & Hc & Hd & Hrest).
      change (group_rev (a :: b :: c :: d :: rest))
        with (a :: b :: c :: ","%char :: group_rev (d :: rest)).
      change (grouped_rev (a :: b :: c :: ","%char :: group_rev (d :: rest)))
        with (is_digit a && is_digit b && is_digit c
              && Ascii.eqb "," "," && grouped_rev (group_rev (d :: rest))).
      rewrite Ha, Hb, Hc. change (Ascii.eqb "," ",") with true. cbn [andb].
      apply IH.
      * simpl in *. lia.
      * discriminate.
      * simpl. rewrite Hd, Hrest. reflexivity.
Qed.

Lemma grouped_rev_group_rev l :
  l <> [] -> forallb is_digit l = true -> grouped_rev (group_rev l) = true.
Proof. apply (grouped_rev_group_rev_upto (List.length l)). lia. Qed.

(** A grouped string holds digits and commas only. *)
Lemma grouped_rev_chars_upto n :
  forall l, (List.length l <= n)%nat -> grouped_rev l = true ->
            forallb (fun c => is_digit c || Ascii.eqb c ",") l = true.
Proof.
  induction n as [| n IH]; intros l Hlen H.
  - destruct l; [discriminate | simpl in Hlen; lia].
  - destruct l as [| a [| b [| c [| d rest]]]]; [discriminate | | | |].
    + simpl in *. rewrite H. reflexivity.
    + simpl in *. apply andb_true_iff in H as [-> ->]. reflexivity.
    + simpl in *. rewrite !andb_true_iff in H. destruct H as [[-> ->] ->].
      reflexivity.
    + change (grouped_rev (a :: b :: c :: d :: rest))
        with (is_digit a && is_digit b && is_digit c
              && Ascii.eqb d "," && grouped_rev rest) in H.
      rewrite !andb_true_iff in H. destruct H as [[[[Ha Hb] Hc] Hd] Hr].
      cbn [forallb]. rewrite Ha, Hb, Hc, Hd, orb_true_r. cbn [orb andb].
      apply IH; [simpl in *; lia | exact Hr].
Qed.

Lemma two_digits_all_ok :
  forallb two_digits_ok below_hundred = true.
Proof. vm_compute. reflexivity. Qed.

Lemma two_digits_spec n :
  0 <= n < 100 ->
  exists a b, list_ascii_of_string (two_digits n) = [a; b] /\
              is_digit a = true /\ is_digit b = true.
Proof.
  intros H.
  assert (Hin : In n below_hundred).
  { unfold below_hundred. apply count_from_spec. lia. }
  pose proof (proj1 (forallb_forall _ _) two_digits_all_ok n Hin) as C.
  unfold two_digits_ok in C.
  destruct (list_ascii_of_string (two_digits n)) as [| a [| b [| ? ?]]];
    try discriminate.
  apply andb_true_iff in C. exists a, b. tauto.
Qed.

Lemma round_half_even_nonneg num den :
  0 <= num -> 0 < den -> 0 <= round_half_even num den.
Proof.
  intros Hn Hd. unfold round_half_even.
  assert (0 <= num / den) by (apply Z.div_pos; lia).
  destruct (_ ?= _); [destruct (Z.even _) | |]; lia.
Qed.

Lemma hundredths_nonneg x : 0 <= hundredths x.
Proof.
  destruct x as [s | s | | s m e]; cbn [hundredths]; try lia.
  destruct (0 <=? e) eqn:E.
  - apply Z.leb_le in E.
    assert (0 < 2 ^ e) by (apply Z.pow_pos_nonneg; lia).
    apply Z.mul_nonneg_nonneg; [apply Z.mul_nonneg_nonneg |]; lia.
  - apply Z.leb_gt in E. apply round_half_even_nonneg; [lia |].
    apply Z.pow_pos_nonneg; lia.
Qed.

(** An unsigned amount as [format_2f] composes it. *)
Lemma amount_chars_shape ds a b :
  ds <> [] -> forallb is_digit ds = true ->
  is_digit a = true -> is_digit b = true ->
  let l := rev (group_rev (rev ds)) ++ "."%char :: [a; b] in
  amount_body l = true /\
  exists c l', l = c :: l' /\ Ascii.eqb c "-" = false.
Proof.
  intros Hne Hd Ha Hb l. subst l.
  assert (Hne' : rev ds <> []).
  { intros E. apply Hne. rewrite <- (rev_involutive ds), E. reflexivity. }
  assert (Hd' : forallb is_digit (rev ds) = true).
  { apply forallb_forall. intros c Hc. apply in_rev in Hc.
    exact (proj1 (forallb_forall _ _) Hd c Hc). }
  pose proof (grouped_rev_group_rev _ Hne' Hd') as Hg.
  split.
  - unfold amount_body.
    rewrite rev_app_distr, rev_involutive. simpl.
    rewrite Ha, Hb, Hg. reflexivity.
  - pose proof (grouped_rev_chars_upto _ _ (le_n _) Hg) as Hc.
    destruct (rev (group_rev (rev ds))) as [| c l'] eqn:E.
    + exfalso. apply (f_equal (@rev ascii)) in E.
      rewrite rev_involutive in E. simpl in E. rewrite E in Hg.
      discriminate.
    + exists c, (l' ++ "."%char :: [a; b]). split; [reflexivity |].
      assert (Hin : In c (group_rev (rev ds))).
      { apply in_rev. rewrite E. left. reflexivity. }
      pose proof (proj1 (forallb_forall _ _) Hc c Hin) as Hcc.
      destruct (Ascii.eqb_spec c "-") as [-> | _]; [discriminate | reflexivity].
Qed.

(** The shape of [format(x, ',.2f')] for a finite [x]: an optional sign, the
    integer part in groups of three, a point, two decimals. *)
Lemma format_2f_shape x :
  is_finite x = true -> two_decimals_grouped (format_2f x) = true.
Proof.
  destruct x as [s | s | | s m e]; try discriminate; intros _.
  - destruct s; reflexivity.
  - pose proof (hundredths_nonneg (S754_finite s m e)) as Hh.
    set (h := hundredths (S754_finite s m e)) in *.
    assert (Hq : 0 <= h / 100) by (apply Z.div_pos; lia).
    assert (Hr : 0 <= h mod 100 < 100) by (apply Z.mod_pos_bound; lia).
    destruct (str_of_int_digits _ Hq) as [Hne Hd].
    destruct (two_digits_spec _ Hr) as (a & b & Hab & Ha & Hb).
    destruct (amount_chars_shape _ a b Hne Hd Ha Hb) as [Hbody (c & l' & Hl & Hc)].
    unfold two_decimals_grouped, format_2f. fold h.
    rewrite !list_ascii_of_string_app. unfold thousands.
    rewrite list_ascii_of_string_of_list_ascii, Hab.
    change (list_ascii_of_string ".") with ["."%char].
    cbn [app] in *.
    destruct s.
    + change (list_ascii_of_string "-") with ["-"%char]. cbn [app].
      change (Ascii.eqb "-" "-") with true. cbv iota. exact Hbody.
    + change (list_ascii_of_string "") with (@nil ascii). cbn [app].
      rewrite Hl in *. rewrite Hc. exact Hbody.
Qed.

(** ** The conversion *)

Lemma format_2f_not_finite x :
  is_finite x = false ->
  existsb (String.eqb (format_2f x)) ["inf"; "-inf"; "nan"] = true.
Proof.
  destruct x as [s | s | | s m e]; try discriminate; intros _;
    [destruct s |]; reflexivity.
Qed.

Lemma format_2f_written x : amount_written x (format_2f x) = true.
Proof.
  unfold amount_written. destruct (is_finite x) eqn:E.
  - exact (format_2f_shape x E).
  - exact (format_2f_not_finite x E).
Qed.

Section ConversionProperties.

Variable repr_other : pyval -> string + limit.

Lemma convert_eq self usd_amount rate name :
  py_float (_conversion_rate self) = Ok rate ->
  py_str repr_other (_currency_name self) = Ok name ->
  convert repr_other self usd_amount
  = Ok ("$" ++ format_2f usd_amount ++ " USD = "
        ++ format_2f (float_mul usd_amount rate) ++ " " ++ name)%string.
Proof.
  intros Hr Hn. unfold convert. rewrite Hr. cbn [bind]. rewrite Hn.
  reflexivity.
Qed.

Lemma convert_name_refused self usd_amount rate e :
  py_float (_conversion_rate self) = Ok rate ->
  py_str repr_other (_currency_name self) = Raise e ->
  convert repr_other self usd_amount = Raise e.
Proof.
  intros Hr Hn. unfold convert. rewrite Hr. cbn [bind]. rewrite Hn.
  reflexivity.
Qed.

(** C2 (amended). When [float] accepts the stored rate, [convert] writes
    the dollar sign, the amount, [" USD = "], the product of amount and
    rate, a space and the currency name as [str] writes it, and raises what
    [str] raises when it refuses the name.  Amount and product are written
    with thousands separators and exactly two decimals when they are
    finite, and as [inf], [-inf] or [nan] when they are not.  For the Euro
    at 0.94, [convert(100.0)] is ["$100.00 USD = 94.00 Euro"]. *)
Theorem convert_format :
  forall (self : Currency) (usd_amount rate : float),
    py_float (_conversion_rate self) = Ok rate ->
    (forall name,
        py_str repr_other (_currency_name self) = Ok name ->
        convert repr_other self usd_amount
        = Ok ("$" ++ format_2f usd_amount ++ " USD = "
              ++ format_2f (float_mul usd_amount rate) ++ " " ++ name)%string) /\
    (forall e,
        py_str repr_other (_currency_name self) = Raise e ->
        convert repr_other self usd_amount = Raise e) /\
    amount_written usd_amount (format_2f usd_amount) = true /\
    amount_written (float_mul usd_amount rate)
                   (format_2f (float_mul usd_amount rate)) = true /\
    convert repr_other euro usd_100 = Ok "$100.00 USD = 94.00 Euro".
Proof.
  intros self usd_amount rate Hrate.
  split; [exact (fun name => convert_eq self usd_amount rate name Hrate) |].
  split; [exact (fun e => convert_name_refused self usd_amount rate e Hrate) |].
  split; [exact (format_2f_written _) |].
  split; [exact (format_2f_written _) |].
  vm_compute. reflexivity.
Qed.


End ConversionProperties.

Lemma convert_format_witness :
  (forall name,
      py_str (fun _ => inl EmptyString) (_currency_name euro) = Ok name ->
      convert (fun _ => inl EmptyString) euro usd_100
      = Ok ("$" ++ format_2f usd_100 ++ " USD = "
            ++ format_2f (float_mul usd_100 rate_0_94) ++ " " ++ name)%string) /\
  (forall e,
      py_str (fun _ => inl EmptyString) (_currency_name euro) = Raise e ->
      convert (fun _ => inl EmptyString) euro usd_100 = Raise e) /\
  amount_written usd_100 (format_2f usd_100) = true /\
  amount_written (float_mul usd_100 rate_0_94)
                 (format_2f (float_mul usd_100 rate_0_94)) = true /\
  convert (fun _ => inl EmptyString) euro usd_100
  = Ok "$100.00 USD = 94.00 Euro".
Proof.
  apply (convert_format (fun _ => inl EmptyString) euro usd_100 rate_0_94).
  reflexivity.
Defined.

(** C2, as stated, fails on amounts that the form
    lets through: [validate_usd] accepts the texts [inf] and [1e308], and
    an infinite amount or product is written without decimals.  It fails
    too on a currency name that is an integer of 4301 digits, which [str]
    refuses. *)
Lemma convert_amount_without_decimals :
  snd (validate_usd (form_after_click "inf")) = Ok true /\
  py_float (PStr "inf") = Ok (S754_infinity false) /\
  convert (fun _ => inl EmptyString) euro (S754_infinity false)
  = Ok "$inf USD = inf Euro" /\
  two_decimals_grouped "inf" = false /\
  snd (validate_usd (form_after_click "1e308")) = Ok true /\
  (exists x,
      py_float (PStr "1e308") = Ok x /\ is_finite x = true /\
      format_2f (float_mul x (float_of_int 150)) = "inf") /\
  convert (fun _ => inl EmptyString)
          (mkCurrency (PStr "X") (PInt int_str_bound) (PInt 1)) usd_100
  = Raise ValueError.
Proof.
  split; [vm_compute; reflexivity |].
  split; [vm_compute; reflexivity |].
  split; [vm_compute; reflexivity |].
  split; [vm_compute; reflexivity |].
  split; [vm_compute; reflexivity |].
  split; [| vm_compute; reflexivity].
  eexists. split; [vm_compute; reflexivity |].
  split; vm_compute; reflexivity.
Qed.


(** The parser takes a row with such a rate without complaint. *)
Example parse_row_keeps_rate :
  parse_row (mkdate 2023 9 30) []
            (treasury_row "2023-09-30" "Germany" "Euro" (PStr "n/a"))
  = Ok [(PStr "Germany",
         [mkCurrency (PStr "Germany") (PStr "Euro") (PStr "n/a")])].
Proof. reflexivity. Qed.

(** Other values that are no numbers fail in [convert] with a
    [TypeError], and an amount beyond the floats is written without
    decimals. *)
Example convert_edge_cases :
  convert (fun _ => inl EmptyString)
          (mkCurrency (PStr "Germany") (PStr "Euro") PNone) usd_100
  = Raise TypeError /\
  convert (fun _ => inl EmptyString) euro (S754_infinity false)
  = Ok "$inf USD = inf Euro".
Proof. split; reflexivity. Qed.

(** ** Further properties of the quarter-end resolver *)

Lemma ymd2ord_same_year y m d m' d' :
  ymd2ord y m d - ymd2ord y m' d'
  = days_before_month y m + d - (days_before_month y m' + d').
Proof. unfold ymd2ord. lia. Qed.

(** X1. The date returned is the end of a quarter that is over: it lies at least
    one day and at most 92 days before the date on the clock. *)
Theorem find_last_quarter_date_recent :
  forall (w : World) (q : date),
    valid_datetime (now w) ->
    1001 <= year (now w) ->
    find_last_quarter_date w = Ok q ->
    1 <= ymd2ord (year (now w)) (month (now w)) (day (now w))
         - ymd2ord (d_year q) (d_month q) (d_day q) <= 92.
Proof.
  intros w q Hv Hy Hq.
  rewrite (find_last_quarter_date_eq w Hv Hy) in Hq. injection Hq as <-.
  destruct Hv as ((_ & (Hm1 & Hm2) & Hd) & _). cbn [d_year d_month d_day] in *.
  set (y := year (now w)) in *. set (m := month (now w)) in *.
  set (d := day (now w)) in *.
  unfold quarter_end_table.
  assert (C : m = 1 \/ m = 2 \/ m = 3 \/ m = 4 \/ m = 5 \/ m = 6 \/ m = 7
              \/ m = 8 \/ m = 9 \/ m = 10 \/ m = 11 \/ m = 12) by lia.
  clearbody m d y.
  destruct C as [-> | [-> | [-> | [-> | [-> | [-> | [-> | [-> | [-> | [-> |
                [-> | ->]]]]]]]]]]];
    cbv beta iota delta [Z.leb Z.compare Pos.compare Pos.compare_cont
                         d_year d_month d_day];
    try rewrite ymd2ord_same_year.
  1-3: unfold ymd2ord;
       pose proof (days_before_year_succ (y - 1)) as Hs;
       replace (y - 1 + 1) with y in Hs by lia.
  all: revert Hd; unfold days_before_month;
    cbv beta iota delta [DAYS_BEFORE_MONTH days_in_month Z.ltb Z.compare
                         Pos.compare Pos.compare_cont andb];
    try destruct (is_leap (y - 1)); destruct (is_leap y); lia.
Qed.

Lemma find_last_quarter_date_recent_witness :
  1 <= ymd2ord 2024 3 31 - ymd2ord 2023 12 31 <= 92.
Proof.
  apply (find_last_quarter_date_recent
           (mkWorld (mkdatetime 2024 3 31 23 0 0 0) no_network)
           (mkdate 2023 12 31)).
  - by_computation.
  - by_computation.
  - vm_compute. reflexivity.
Defined.

(** ** Further properties of the parser *)

(** *** What the parser can raise *)

Lemma subscript_raises v key e :
  subscript v key = Raise e -> e = KeyError \/ e = TypeError.
Proof.
  unfold subscript. destruct v; try (intros [= <-]; auto).
  destruct (lookup key entries); [discriminate | intros [= <-]; auto].
Qed.

Lemma row_fields_raises row e :
  row_fields row = Raise e ->
  e = KeyError \/ e = TypeError \/ e = ValueError.
Proof.
  unfold row_fields.
  destruct (subscript row "record_date") as [df | e0] eqn:E0; cbn [bind].
  2:{ intros [= <-]. destruct (subscript_raises _ _ _ E0); auto. }
  assert (Hd : forall e1,
             match df with PStr s => strptime_Ymd s | _ => Raise TypeError end
             = Raise e1 -> e1 = TypeError \/ e1 = ValueError).
  { intros e1. destruct df; try (intros [= <-]; auto).
    intros H. right. exact (strptime_Ymd_raises _ _ H). }
  destruct (match df with PStr s => strptime_Ymd s | _ => Raise TypeError end)
    as [t | e1]; cbn [bind].
  2:{ intros [= <-]. destruct (Hd e1 eq_refl); auto. }
  destruct (subscript row "country") as [c | e2] eqn:E2; cbn [bind].
  2:{ intros [= <-]. destruct (subscript_raises _ _ _ E2); auto. }
  destruct (subscript row "currency") as [n | e3] eqn:E3; cbn [bind].
  2:{ intros [= <-]. destruct (subscript_raises _ _ _ E3); auto. }
  destruct (subscript row "exchange_rate") as [r | e4] eqn:E4; cbn [bind].
  2:{ intros [= <-]. destruct (subscript_raises _ _ _ E4); auto. }
  discriminate.
Qed.

Lemma parse_row_raises q d row e :
  parse_row q d row = Raise e ->
  e = KeyError \/ e = TypeError \/ e = ValueError.
Proof.
  unfold parse_row.
  destruct (row_fields row) as [[[[rd country] currency] rate] | e0] eqn:Hf.
  - rewrite <- Hf. fold (parse_row q d row).
    rewrite (parse_row_fields _ _ _ _ _ _ _ Hf).
    destruct (date_eqb rd q); [| discriminate].
    destruct (key_of country); [discriminate | intros [= <-]; auto].
  - cbn [bind]. intros [= <-]. exact (row_fields_raises _ _ Hf).
Qed.

Lemma parse_rows_raises q rows :
  forall d e, parse_rows q d rows = Raise e ->
              e = KeyError \/ e = TypeError \/ e = ValueError.
Proof.
  induction rows as [| row rows IH]; intros d e; cbn [parse_rows];
    [discriminate |].
  destruct (parse_row q d row) as [d' | e0] eqn:E; cbn [bind].
  - apply IH.
  - intros [= <-]. exact (parse_row_raises _ _ _ _ E).
Qed.

Lemma find_last_quarter_date_raises w e :
  find_last_quarter_date w = Raise e ->
  e = OverflowError \/ e = ValueError \/ e = BusinessLogicException.
Proof.
  unfold find_last_quarter_date.
  destruct (_ <? APRIL).
  { destruct (sub_days _ _) as [t' | e0] eqn:S; cbn [bind].
    - destruct (strptime_Ymd _) as [t | e1] eqn:P; cbn [bind]; [discriminate |].
      intros [= <-]. rewrite (strptime_Ymd_raises _ _ P). auto.
    - intros [= <-]. rewrite (sub_days_raises _ _ _ S). auto. }
  destruct (_ <? JULY).
  { destruct (strptime_Ymd _) as [t | e1] eqn:P; cbn [bind]; [discriminate |].
    intros [= <-]. rewrite (strptime_Ymd_raises _ _ P). auto. }
  destruct (_ <? OCTOBER).
  { destruct (strptime_Ymd _) as [t | e1] eqn:P; cbn [bind]; [discriminate |].
    intros [= <-]. rewrite (strptime_Ymd_raises _ _ P). auto. }
  destruct (_ <=? DECEMBER).
  { destruct (strptime_Ymd _) as [t | e1] eqn:P; cbn [bind]; [discriminate |].
    intros [= <-]. rewrite (strptime_Ymd_raises _ _ P). auto. }
  intros [= <-]. auto.
Qed.

Lemma parse_treasury_response_body_raises w response e :
  parse_treasury_response_body w response = Raise e ->
  In e [HTTPError; JSONDecodeError; KeyError; TypeError; ValueError;
        OverflowError; BusinessLogicException; RecursionError].
Proof.
  unfold parse_treasury_response_body.
  destruct (raise_for_status response) as [[] | e0] eqn:Es; cbn [bind].
  2:{ intros [= <-]. unfold raise_for_status in Es.
      destruct (_ || _); [injection Es as <- | discriminate]. simpl. auto. }
  destruct (json response) as [v | e1] eqn:Ej; cbn [bind].
  2:{ intros [= <-]. unfold json in Ej.
      destruct (body response) as [v | | []];
        [discriminate | injection Ej as <- ..]; simpl; auto 10. }
  destruct (find_last_quarter_date w) as [q | e2] eqn:Eq; cbn [bind].
  2:{ intros [= <-].
      destruct (find_last_quarter_date_raises _ _ Eq) as [-> | [-> | ->]];
        simpl; auto 10. }
  destruct (subscript v "data") as [data | e3] eqn:Ed; cbn [bind].
  2:{ intros [= <-]. destruct (subscript_raises _ _ _ Ed) as [-> | ->];
        simpl; auto 10. }
  destruct (iterate data) as [rows | e4] eqn:Ei; cbn [bind].
  2:{ intros [= <-]. destruct data; try discriminate Ei;
        injection Ei as <-; simpl; auto 10. }
  intros H. destruct (parse_rows_raises _ _ _ _ H) as [-> | [-> | ->]];
    simpl; auto 10.
Qed.

Lemma parse_treasury_response_raises w response e :
  parse_treasury_response w response = Raise e ->
  e = BusinessLogicException \/ e = ValueError \/ e = TypeError \/
  e = OverflowError \/ e = RecursionError.
Proof.
  intros H. unfold parse_treasury_response in H.
  unfold handle_request_errors in H.
  destruct (parse_treasury_response_body w response) as [d | e0] eqn:Eb;
    [discriminate |].
  apply parse_treasury_response_body_raises in Eb.
  simpl in Eb.
  destruct Eb as [<- | [<- | [<- | [<- | [<- | [<- | [<- | [<- | []]]]]]]]];
    vm_compute in H; injection H as <-; auto 10.
Qed.

(** X2. Whatever the response and the clock, an exception that leaves the
    parser is a [BusinessLogicException], a [ValueError], a [TypeError], an
    [OverflowError] or a [RecursionError]. *)
Theorem parse_treasury_response_error_surface :
  forall (w : World) (response : Response) (e : exn),
    parse_treasury_response w response = Raise e ->
    In e parser_errors.
Proof.
  intros w response e H. unfold parser_errors.
  destruct (parse_treasury_response_raises w response e H)
    as [-> | [-> | [-> | [-> | ->]]]]; simpl; auto 10.
Qed.

Lemma parse_treasury_response_error_surface_witness :
  In ValueError parser_errors.
Proof.
  apply (parse_treasury_response_error_surface november_2023
           (response_with
              [treasury_row "30/09/2023" "Germany" "Euro" (PStr "0.94")])).
  vm_compute. reflexivity.
Defined.

(** *** Keys and lookups *)

Lemma upsert_keys d country c :
  map fst (upsert d country c)
  = if existsb (fun kv => key_eqb (fst kv) country) d
    then map fst d else map fst d ++ [country].
Proof.
  induction d as [| [k v] rest IH]; cbn [upsert map fst existsb];
    [reflexivity |].
  destruct (key_eqb k country); cbn [orb map fst]; [reflexivity |].
  rewrite IH. destruct (existsb _ rest); reflexivity.
Qed.

Lemma ForallOrdPairs_snoc {A : Type} (R : A -> A -> Prop) l x :
  ForallOrdPairs R l -> Forall (fun a => R a x) l ->
  ForallOrdPairs R (l ++ [x]).
Proof.
  induction 1 as [| a l Ha Hl IH]; intros Hx; cbn [app].
  - constructor; constructor.
  - inversion Hx; subst. constructor.
    + apply Forall_app. split; [exact Ha | constructor; [assumption | constructor]].
    + apply IH. assumption.
Qed.

Lemma upsert_keys_distinct d country c :
  keys_distinct d -> keys_distinct (upsert d country c).
Proof.
  unfold keys_distinct. intros H. rewrite upsert_keys.
  destruct (existsb _ d) eqn:E; [exact H |].
  apply ForallOrdPairs_snoc; [exact H |].
  apply Forall_forall. intros k Hk.
  apply in_map_iff in Hk as (kv & <- & Hin).
  destruct (key_eqb (fst kv) country) eqn:E'; [| reflexivity].
  rewrite <- E. symmetry. apply existsb_exists. exists kv. auto.
Qed.

Lemma parse_row_keys_distinct q d row d' :
  parse_row q d row = Ok d' -> keys_distinct d -> keys_distinct d'.
Proof.
  intros H Hd. unfold parse_row in H.
  destruct (row_fields row) as [[[[rd country] currency] rate] | e] eqn:Hf;
    [| discriminate].
  rewrite <- Hf in H. fold (parse_row q d row) in H.
  rewrite (parse_row_fields _ _ _ _ _ _ _ Hf) in H.
  destruct (date_eqb rd q); [| congruence].
  destruct (key_of country) as [kv |]; [| discriminate].
  injection H as <-. apply upsert_keys_distinct. exact Hd.
Qed.

Lemma parse_rows_keys_distinct q rows :
  forall d d', parse_rows q d rows = Ok d' ->
               keys_distinct d -> keys_distinct d'.
Proof.
  induction rows as [| row rows IH]; intros d d' H Hd.
  - injection H as <-. exact Hd.
  - cbn [parse_rows] in H. apply bind_Ok_inv in H as (d1 & H1 & H2).
    exact (IH _ _ H2 (parse_row_keys_distinct _ _ _ _ H1 Hd)).
Qed.

(** In a well-formed dictionary every key equals itself. *)
Lemma entries_well_formed_key_refl d k l :
  entries_well_formed d -> In (k, l) d -> key_eqb k k = true.
Proof.
  intros Hwf Hin. unfold entries_well_formed in Hwf.
  pose proof (proj1 (Forall_forall _ _) Hwf (k, l) Hin) as [Hne Hall].
  cbn [fst snd] in *. destruct l as [| c l]; [congruence |].
  inversion Hall as [| ? ? Hc _]; subst.
  apply key_eqb_refl. unfold key_eqb in Hc.
  destruct (key_of k); [discriminate | discriminate Hc].
Qed.

Lemma dict_getitem_listed d :
  keys_distinct d ->
  (forall k l, In (k, l) d -> key_eqb k k = true) ->
  forall k l, In (k, l) d -> dict_getitem d k = Ok l.
Proof.
  unfold keys_distinct.
  induction d as [| [k0 v0] rest IH]; intros Hd Hr k l Hin; [contradiction |].
  cbn [map fst] in Hd. inversion Hd as [| ? ? Hhead Htail]; subst.
  cbn [dict_getitem]. destruct Hin as [[= -> ->] | Hin].
  - rewrite (Hr k l (or_introl eq_refl)). reflexivity.
  - assert (Hk : key_eqb k0 k = false).
    { apply (proj1 (Forall_forall _ _) Hhead).
      apply in_map_iff. exists (k, l). auto. }
    rewrite Hk. apply IH; [exact Htail | | exact Hin].
    intros k' l' H'. apply (Hr k' l'). right. exact H'.
Qed.

Lemma parse_treasury_response_Ok_rows w response d :
  parse_treasury_response w response = Ok d ->
  exists q rows, parse_rows q [] rows = Ok d.
Proof.
  intros H.
  destruct (parse_treasury_response_Ok_inv w response d H)
    as (v & q & data & rows & _ & _ & _ & _ & _ & Hp).
  exists q, rows. exact Hp.
Qed.

(** X3. In a mapping that the parser returns no two keys are equal, and
    looking up a key that the mapping lists returns the list stored with
    it. *)
Theorem parse_treasury_response_keys :
  forall (w : World) (response : Response) (d : currency_map),
    parse_treasury_response w response = Ok d ->
    keys_distinct d /\
    forall k l, In (k, l) d -> dict_getitem d k = Ok l.
Proof.
  intros w response d H.
  destruct (parse_treasury_response_Ok_rows w response d H) as (q & rows & Hp).
  assert (Hd : keys_distinct d).
  { apply (parse_rows_keys_distinct q rows [] d Hp). constructor. }
  assert (Hwf : entries_well_formed d).
  { apply (parse_rows_well_formed q rows [] d Hp). constructor. }
  split; [exact Hd |].
  apply dict_getitem_listed; [exact Hd |].
  intros k l. apply entries_well_formed_key_refl. exact Hwf.
Qed.

Lemma parse_treasury_response_keys_witness :
  let d := [(PStr "Germany",
             [mkCurrency (PStr "Germany") (PStr "Euro")
                (PFloat (float_of_decimal false 94 (-2)));
              mkCurrency (PStr "Germany") (PStr "Other")
                (PFloat (float_of_decimal false 11 (-1)))])] in
  keys_distinct d /\ forall k l, In (k, l) d -> dict_getitem d k = Ok l.
Proof.
  apply (parse_treasury_response_keys
           november_2023 (response_with example_payload)).
  vm_compute. reflexivity.
Defined.

(** *** No row is lost or counted twice *)

Lemma upsert_concat d country c :
  Permutation (List.concat (map snd (upsert d country c)))
              (List.concat (map snd d) ++ [c]).
Proof.
  induction d as [| [k v] rest IH]; cbn [upsert map snd List.concat].
  - apply Permutation_refl.
  - destruct (key_eqb k country); cbn [map snd List.concat].
    + rewrite <- !app_assoc. apply Permutation_app_head.
      apply Permutation_app_comm.
    + rewrite <- app_assoc. apply Permutation_app_head. exact IH.
Qed.

Lemma parse_rows_concat q rows fields :
  fields_of rows fields ->
  forall d0 d, parse_rows q d0 rows = Ok d ->
  Permutation (List.concat (map snd d))
              (List.concat (map snd d0) ++ quarter_rows q fields).
Proof.
  induction 1 as [| row [[[rd country] currency] rate] rows fields Hrow _ IH];
    intros d0 d H.
  - injection H as <-. cbn [quarter_rows flat_map]. rewrite app_nil_r.
    apply Permutation_refl.
  - cbn [parse_rows] in H. apply bind_Ok_inv in H as (d1 & H1 & H2).
    rewrite (parse_row_fields _ _ _ _ _ _ _ Hrow) in H1.
    cbn [quarter_rows flat_map].
    destruct (date_eqb rd q).
    + destruct (key_of country) as [kv |]; [| discriminate].
      injection H1 as <-.
      eapply Permutation_trans; [exact (IH _ _ H2) |].
      fold (quarter_rows q fields).
      change ([mkCurrency country currency rate] ++ quarter_rows q fields)
        with (mkCurrency country currency rate :: quarter_rows q fields).
      rewrite (app_assoc _ [mkCurrency country currency rate]
                 (quarter_rows q fields) : _ ++ _ :: _ = _).
      apply Permutation_app_tail. apply upsert_concat.
    + injection H1 as <-. exact (IH _ _ H2).
Qed.

(** X4. The currencies of a mapping that the parser returns, all lists put
    together, are the rows of the payload dated at the resolved quarter end,
    each once: no such row is dropped and none appears twice. *)
Theorem parse_treasury_response_all_rows :
  forall (w : World) (response : Response) (d : currency_map),
    parse_treasury_response w response = Ok d ->
    exists v q data rows fields,
      body_json response = Some v /\
      find_last_quarter_date w = Ok q /\
      subscript v "data" = Ok data /\
      iterate data = Ok rows /\
      fields_of rows fields /\
      Permutation (List.concat (map snd d)) (quarter_rows q fields).
Proof.
  intros w response d H.
  destruct (parse_treasury_response_Ok_inv w response d H)
    as (v & q & data & rows & Hs & Hj & Hq & Hd & Hi & Hp).
  destruct (parse_rows_Ok_fields q rows [] d Hp) as (fields & Hf & _).
  exists v, q, data, rows, fields. repeat split; try assumption.
  exact (parse_rows_concat q rows fields Hf [] d Hp).
Qed.

Lemma parse_treasury_response_all_rows_witness :
  exists v q data rows fields,
    body_json (response_with example_payload) = Some v /\
    find_last_quarter_date november_2023 = Ok q /\
    subscript v "data" = Ok data /\
    iterate data = Ok rows /\
    fields_of rows fields /\
    Permutation
      [mkCurrency (PStr "Germany") (PStr "Euro")
         (PFloat (float_of_decimal false 94 (-2)));
       mkCurrency (PStr "Germany") (PStr "Other")
         (PFloat (float_of_decimal false 11 (-1)))]
      (quarter_rows q fields).
Proof.
  apply (parse_treasury_response_all_rows
           november_2023 (response_with example_payload)
           [(PStr "Germany",
             [mkCurrency (PStr "Germany") (PStr "Euro")
                (PFloat (float_of_decimal false 94 (-2)));
              mkCurrency (PStr "Germany") (PStr "Other")
                (PFloat (float_of_decimal false 11 (-1)))])]).
  vm_compute. reflexivity.
Defined.

(** *** A longer payload only adds *)

(** X5. When rows are added at the end of a payload, every list of the old
    mapping is found again at the head of the list under the same key. *)
Theorem parse_treasury_response_prefix :
  forall (w : World) (r1 r2 : Response) (v1 v2 : pyval)
         (rows1 rows2 : list pyval) (d1 d2 : currency_map)
         (k : pyval) (l1 : list Currency),
    body_json r1 = Some v1 ->
    subscript v1 "data" = Ok (PList rows1) ->
    body_json r2 = Some v2 ->
    subscript v2 "data" = Ok (PList (rows1 ++ rows2)) ->
    parse_treasury_response w r1 = Ok d1 ->
    parse_treasury_response w r2 = Ok d2 ->
    dict_getitem d1 k = Ok l1 ->
    exists l2, dict_getitem d2 k = Ok (l1 ++ l2).
Proof.
  intros w r1 r2 v1 v2 rows1 rows2 d1 d2 k l1 Hj1 Hd1 Hj2 Hd2 H1 H2 Hget.
  destruct (parse_treasury_response_Ok_inv w r1 d1 H1)
    as (v1' & q & data1 & rs1 & _ & Hj1' & Hq & Hd1' & Hi1 & Hp1).
  destruct (parse_treasury_response_Ok_inv w r2 d2 H2)
    as (v2' & q' & data2 & rs2 & _ & Hj2' & Hq' & Hd2' & Hi2 & Hp2).
  assert (v1' = v1) by congruence. subst v1'.
  assert (v2' = v2) by congruence. subst v2'.
  assert (q' = q) by congruence. subst q'.
  assert (data1 = PList rows1) by congruence. subst data1.
  assert (data2 = PList (rows1 ++ rows2)) by congruence. subst data2.
  cbn [iterate] in Hi1, Hi2.
  injection Hi1 as <-. injection Hi2 as <-.
  rewrite parse_rows_app, Hp1 in Hp2. cbn [bind] in Hp2.
  destruct (parse_rows_Ok_fields q rows2 d1 d2 Hp2) as (fields & Hf & Hk).
  destruct (parse_rows_selected q rows2 fields Hf Hk d1) as (d & Hp & Hsel).
  assert (d = d2) by congruence. subst d.
  exists (selected_rows q k fields). rewrite Hsel, Hget. reflexivity.
Qed.

Lemma parse_treasury_response_prefix_witness :
  exists l2,
    dict_getitem
      [(PStr "Germany",
        [mkCurrency (PStr "Germany") (PStr "Euro")
           (PFloat (float_of_decimal false 94 (-2)));
         mkCurrency (PStr "Germany") (PStr "Other")
           (PFloat (float_of_decimal false 11 (-1)))])]
      (PStr "Germany")
    = Ok ([mkCurrency (PStr "Germany") (PStr "Euro")
             (PFloat (float_of_decimal false 94 (-2)))] ++ l2).
Proof.
  apply (parse_treasury_response_prefix november_2023
           (response_with (firstn 1 example_payload))
           (response_with example_payload)
           (PDict [("data", PList (firstn 1 example_payload))])
           (PDict [("data", PList example_payload)])
           (firstn 1 example_payload) (skipn 1 example_payload)
           [(PStr "Germany",
             [mkCurrency (PStr "Germany") (PStr "Euro")
                (PFloat (float_of_decimal false 94 (-2)))])]);
    vm_compute; reflexivity.
Defined.

(** ** [get_currency_data] *)

Lemma parse_treasury_response_no_transport_error w response e :
  parse_treasury_response w response = Raise e ->
  isinstance e transport_errors = false.
Proof.
  intros H.
  destruct (parse_treasury_response_raises w response e H)
    as [-> | [-> | [-> | [-> | ->]]]]; reflexivity.
Qed.

(** X6. When [requests.get] raises a class of [requests],
    [get_currency_data] raises [BusinessLogicException]; when it returns a
    response, [get_currency_data] raises what the parser raises on that
    response, unchanged: [BusinessLogicException] where the wrapper of the
    parser has translated, and [ValueError], [TypeError], [OverflowError] or
    [RecursionError] where it has not. *)
Theorem get_currency_data_failure :
  forall w : World,
    (forall e,
        requests_get w url params = Raise e ->
        issubclass e RequestException = true ->
        get_currency_data w = Raise BusinessLogicException) /\
    (forall response e,
        requests_get w url params = Ok response ->
        parse_treasury_response w response = Raise e ->
        get_currency_data w = Raise e /\ In e parser_errors).
Proof.
  intros w. split.
  - intros e Hget Hsub. unfold get_currency_data.
    rewrite (fetch_treasury_data_request_failure w e Hget Hsub). reflexivity.
  - intros response e Hget Hp. unfold get_currency_data, fetch_treasury_data.
    rewrite Hget. cbn [bind]. rewrite Hp. unfold parser_errors.
    destruct (parse_treasury_response_raises w response e Hp)
      as [-> | [-> | [-> | [-> | ->]]]];
      (split; [reflexivity | simpl; auto 10]).
Qed.

Lemma get_currency_data_failure_witness :
  get_currency_data
    (mkWorld (mkdatetime 2023 11 4 9 15 0 0)
             (fun _ _ => Ok (response_with
                               [treasury_row "30/09/2023" "Germany" "Euro"
                                  (PStr "0.94")])))
  = Raise ValueError /\
  In ValueError parser_errors.
Proof.
  apply (proj2 (get_currency_data_failure
                  (mkWorld (mkdatetime 2023 11 4 9 15 0 0)
                     (fun _ _ => Ok (response_with
                                       [treasury_row "30/09/2023" "Germany"
                                          "Euro" (PStr "0.94")]))))
               (response_with
                  [treasury_row "30/09/2023" "Germany" "Euro" (PStr "0.94")])
               ValueError).
  - reflexivity.
  - vm_compute. reflexivity.
Defined.

(** A failure that the wrapper translates, and a failure of the fetch. *)
Example get_currency_data_translated :
  get_currency_data
    (mkWorld (mkdatetime 2023 11 4 9 15 0 0)
             (fun _ _ => Ok (mkResponse 503 not_json)))
  = Raise BusinessLogicException /\
  get_currency_data
    (mkWorld (mkdatetime 2023 11 4 9 15 0 0) (fun _ _ => Raise ReadTimeout))
  = Raise BusinessLogicException.
Proof. split; vm_compute; reflexivity. Qed.

(** X7. [get_currency_data] returns a mapping exactly when the request
    returns a response on which the parser returns that mapping; and no
    [DalException] and no class of [requests] comes out of it. *)
Theorem get_currency_data_result :
  forall (w : World) (d : currency_map),
    (get_currency_data w = Ok d <->
     exists response, requests_get w url params = Ok response /\
                      parse_treasury_response w response = Ok d) /\
    match get_currency_data w with
    | Ok _ => True
    | Raise e => isinstance e transport_errors = false
    end.
Proof.
  intros w d. unfold get_currency_data, fetch_treasury_data. split.
  - destruct (requests_get w url params) as [response | e]; cbn [bind].
    + unfold except_raise.
      destruct (parse_treasury_response w response) as [d' | e'] eqn:Ep.
      * split; [intros [= <-]; eauto |].
        intros (r & [= <-] & Hp). congruence.
      * split; [destruct (isinstance e' _); discriminate |].
        intros (r & [= <-] & Hp). congruence.
    + split; [| intros (r & Hr & _); discriminate].
      intros H. exfalso. revert H.
      destruct (isinstance e [Timeout]); cbn [bind];
        [intros H; vm_compute in H; discriminate H |].
      destruct (isinstance e [ConnectionError]); cbn [bind];
        [intros H; vm_compute in H; discriminate H |].
      destruct (isinstance e [RequestException]); cbn [bind];
        [intros H; vm_compute in H; discriminate H |].
      unfold except_raise. destruct (isinstance e _); discriminate.
  - destruct (requests_get w url params) as [response | e]; cbn [bind].
    + unfold except_raise.
      destruct (parse_treasury_response w response) as [d' | e'] eqn:Ep;
        [exact I |].
      pose proof (parse_treasury_response_no_transport_error _ _ _ Ep) as Hn.
      destruct (isinstance e' [DalException; BusinessLogicException]);
        [reflexivity | exact Hn].
    + destruct e; vm_compute; reflexivity.
Qed.

(** ** Further properties of the conversion *)

Lemma py_float_raises rate e :
  py_float rate = Raise e -> rate_refused rate e.
Proof.
  unfold py_float, rate_refused. destruct rate as [| b | n | x | s | l | l].
  - intros [= <-]. right. left. auto.
  - discriminate.
  - destruct (float_of_int n) eqn:E; try discriminate.
    intros [= <-]. right. right. split; [reflexivity |].
    exists n. rewrite E. auto.
  - discriminate.
  - destruct (float_of_string s) eqn:E; [discriminate |].
    intros [= <-]. left. eauto.
  - intros [= <-]. right. left. split; [reflexivity |]. right. left. eauto.
  - intros [= <-]. right. left. split; [reflexivity |]. right. right. eauto.
Qed.

Lemma py_str_of_int_raises n e :
  py_str_of_int n = Raise e ->
  e = ValueError /\ int_str_bound <= Z.abs n.
Proof.
  unfold py_str_of_int.
  destruct (Z.leb_spec int_str_bound (Z.abs n)) as [H | H];
    [| discriminate].
  intros [= <-]. split; [reflexivity | exact H].
Qed.

Section ConversionErrors.

Variable repr_other : pyval -> string + limit.

Lemma py_str_raises name e :
  py_str repr_other name = Raise e -> name_refused repr_other name e.
Proof.
  unfold py_str, name_refused.
  destruct name as [| b | n | x | s | l | l]; try discriminate.
  - intros H. destruct (py_str_of_int_raises n e H) as [-> Hn].
    left. split; [reflexivity |]. exists n. split; [reflexivity | exact Hn].
  - destruct (repr_other (PFloat x)) as [s | l] eqn:E; [discriminate |].
    intros [= <-]. right. exists l. auto.
  - destruct (repr_other (PList l)) as [s | l'] eqn:E; [discriminate |].
    intros [= <-]. right. exists l'. auto.
  - destruct (repr_other (PDict l)) as [s | l'] eqn:E; [discriminate |].
    intros [= <-]. right. exists l'. auto.
Qed.

Lemma name_refused_class name e :
  name_refused repr_other name e -> e = ValueError \/ e = RecursionError.
Proof.
  intros [[-> _] | (l & _ & -> & _)]; [auto |]. destruct l; auto.
Qed.

Lemma convert_Raise_inv self usd_amount e :
  convert repr_other self usd_amount = Raise e ->
  py_float (_conversion_rate self) = Raise e \/
  (exists rate, py_float (_conversion_rate self) = Ok rate) /\
  py_str repr_other (_currency_name self) = Raise e.
Proof.
  unfold convert.
  destruct (py_float (_conversion_rate self)) as [rate | e0]; cbn [bind].
  - destruct (py_str repr_other (_currency_name self)) as [name | e1];
      cbn [bind]; [discriminate |].
    intros [= <-]. right. split; [exists rate |]; reflexivity.
  - intros [= <-]. left. reflexivity.
Qed.

Lemma convert_raises self usd_amount e :
  convert repr_other self usd_amount = Raise e ->
  e = ValueError \/ e = TypeError \/ e = OverflowError \/ e = RecursionError.
Proof.
  intros H. destruct (convert_Raise_inv self usd_amount e H) as [Hr | [_ Hn]].
  - destruct (py_float_raises _ _ Hr) as [[-> _] | [[-> _] | [-> _]]]; auto.
  - destruct (name_refused_class _ _ (py_str_raises _ _ Hn)); auto.
Qed.

(** X8. [convert] fails only on account of what the [Currency] holds, never
    of the amount: when it raises, either [float] refuses the rate (a string
    that it cannot read, [ValueError]; a [None], list or dict, [TypeError];
    an integer beyond the floats, [OverflowError]), or the rate is accepted
    and [str] refuses the currency name (an integer of more than 4300
    digits, [ValueError]; a float, list or dict whose text meets the digit
    or the recursion limit, [ValueError] or [RecursionError]). *)
Theorem convert_error_surface :
  forall (self : Currency) (usd_amount : float) (e : exn),
    convert repr_other self usd_amount = Raise e ->
    rate_refused (_conversion_rate self) e \/
    (exists rate, py_float (_conversion_rate self) = Ok rate) /\
    name_refused repr_other (_currency_name self) e.
Proof.
  intros self usd_amount e H.
  destruct (convert_Raise_inv self usd_amount e H) as [Hr | [Hr Hn]].
  - left. exact (py_float_raises _ _ Hr).
  - right. split; [exact Hr | exact (py_str_raises _ _ Hn)].
Qed.

End ConversionErrors.

Lemma convert_error_surface_witness :
  rate_refused (PInt 1) ValueError \/
  (exists rate, py_float (PInt 1) = Ok rate) /\
  name_refused (fun _ => inl EmptyString) (PInt int_str_bound) ValueError.
Proof.
  apply (convert_error_surface (fun _ => inl EmptyString)
           (mkCurrency (PStr "X") (PInt int_str_bound) (PInt 1)) usd_100).
  vm_compute. reflexivity.
Defined.

(** With a string for a name, only the rate can make [convert] fail. *)
Example convert_rate_errors :
  convert (fun _ => inl EmptyString)
          (mkCurrency (PStr "Germany") (PStr "Euro") PNone) usd_100
  = Raise TypeError /\
  convert (fun _ => inl EmptyString)
          (mkCurrency (PStr "Germany") (PStr "Euro") (PStr "n/a")) usd_100
  = Raise ValueError.
Proof. split; reflexivity. Qed.

(** ** The form: validation *)

Lemma is_float_eq value :
  is_float value
  = Ok match float_of_string value with
       | Some x => float_gt x (S754_zero false)
       | None => false
       end.
Proof.
  unfold is_float, py_float.
  destruct (float_of_string value) as [x |]; cbn [bind]; [| reflexivity].
  destruct (float_gt x (S754_zero false)); reflexivity.
Qed.

Lemma validate_usd_eq f :
  validate_usd f
  = (if usd_accepted f then f
     else showinfo "Error"
            (if String.eqb (str_strip (usd_entry f)) ""
             then "You must enter a USD amount to convert!"
             else "USD amount can only be numbers (and decimal point...)")
            f,
     Ok (usd_accepted f)).
Proof.
  unfold validate_usd, usd_accepted.
  destruct (String.eqb_spec (str_strip (usd_entry f)) "") as [E | E].
  - rewrite E. reflexivity.
  - rewrite is_float_eq.
    destruct (float_of_string (str_strip (usd_entry f))) as [x |];
      [| reflexivity].
    destruct (float_gt x (S754_zero false)); reflexivity.
Qed.

Lemma usd_accepted_true f :
  usd_accepted f = true <->
  exists x, float_of_string (str_strip (usd_entry f)) = Some x /\
            float_gt x (S754_zero false) = true.
Proof.
  unfold usd_accepted.
  destruct (float_of_string (str_strip (usd_entry f))) as [x |].
  - split; [eauto |]. intros (x' & [= <-] & H). exact H.
  - split; [discriminate |]. intros (x' & H & _). discriminate H.
Qed.

(** X9. [validate_usd] never raises; it answers [True] exactly when the
    text of the entry, stripped, is read by [float] as a value above zero
    (infinity included, not-a-number excluded); then it leaves the form as
    it is, and otherwise it shows one message box and changes nothing
    else. *)
Theorem validate_usd_spec :
  forall f : ConversionForm,
    exists ok,
      snd (validate_usd f) = Ok ok /\
      (ok = true <->
       exists x, float_of_string (str_strip (usd_entry f)) = Some x /\
                 float_gt x (S754_zero false) = true) /\
      fst (validate_usd f)
      = (if ok then f
         else showinfo "Error"
                (if String.eqb (str_strip (usd_entry f)) ""
                 then "You must enter a USD amount to convert!"
                 else "USD amount can only be numbers (and decimal point...)")
                f).
Proof.
  intros f. exists (usd_accepted f). rewrite validate_usd_eq. cbn [fst snd].
  split; [reflexivity |]. split; [exact (usd_accepted_true f) | reflexivity].
Qed.

Example validate_usd_values :
  snd (validate_usd (form_after_click " 12.50 ")) = Ok true /\
  snd (validate_usd (form_after_click "inf")) = Ok true /\
  snd (validate_usd (form_after_click "nan")) = Ok false /\
  snd (validate_usd (form_after_click "0")) = Ok false /\
  snd (validate_usd (form_after_click "-3")) = Ok false /\
  snd (validate_usd (form_after_click "1,000")) = Ok false /\
  snd (validate_usd (form_after_click "   ")) = Ok false.
Proof. repeat split. Qed.

(** *** Stripping twice *)

Lemma lstrip_idempotent l : lstrip (lstrip l) = lstrip l.
Proof.
  induction l as [| c l IH]; cbn [lstrip]; [reflexivity |].
  destruct (is_space c) eqn:E; [exact IH |].
  cbn [lstrip]. rewrite E. reflexivity.
Qed.

Lemma lstrip_snoc l a :
  is_space a = false -> exists y, lstrip (l ++ [a]) = y ++ [a].
Proof.
  intros Ha. induction l as [| c l IH]; cbn [app lstrip].
  - rewrite Ha. exists []. reflexivity.
  - destruct (is_space c); [exact IH |]. exists (c :: l). reflexivity.
Qed.

Lemma lstrip_head l a t : lstrip l = a :: t -> is_space a = false.
Proof.
  induction l as [| c l IH]; cbn [lstrip]; [discriminate |].
  destruct (is_space c) eqn:E; [exact IH |].
  intros [= <- _]. exact E.
Qed.

Lemma strip_idempotent l : strip (strip l) = strip l.
Proof.
  unfold strip.
  destruct (lstrip l) as [| a t] eqn:E; [reflexivity |].
  pose proof (lstrip_head _ _ _ E) as Ha.
  cbn [rev]. destruct (lstrip_snoc (rev t) a Ha) as (y & Hy).
  rewrite Hy, rev_app_distr. cbn [rev app lstrip]. rewrite Ha.
  cbn [rev]. rewrite rev_involutive, <- Hy, lstrip_idempotent.
  rewrite Hy, rev_app_distr. reflexivity.
Qed.

Lemma lstrip_Forall (P : ascii -> Prop) l : Forall P l -> Forall P (lstrip l).
Proof.
  induction 1 as [| c l Hc Hl IH]; cbn [lstrip]; [constructor |].
  destruct (is_space c); [exact IH | constructor; assumption].
Qed.

Lemma str_lstrip_lstrip l :
  Forall (fun c => is_str_space c = is_space c) l -> str_lstrip l = lstrip l.
Proof.
  induction 1 as [| c l Hc Hl IH]; cbn [str_lstrip lstrip]; [reflexivity |].
  rewrite Hc, IH. reflexivity.
Qed.

Lemma float_of_string_str_strip s :
  no_separator s -> float_of_string (str_strip s) = float_of_string s.
Proof.
  unfold no_separator, float_of_string, str_strip. intros H.
  rewrite list_ascii_of_string_of_list_ascii.
  rewrite (str_lstrip_lstrip _ H).
  rewrite str_lstrip_lstrip.
  - fold (strip (list_ascii_of_string s)). rewrite strip_idempotent.
    reflexivity.
  - apply Forall_rev. apply lstrip_Forall. exact H.
Qed.

(** X10. When [validate_usd] has accepted a text without separator
    characters, [float] of the unstripped text, as the handler calls it,
    succeeds and gives a value above zero. *)
Theorem validate_usd_then_float :
  forall f : ConversionForm,
    no_separator (usd_entry f) ->
    snd (validate_usd f) = Ok true ->
    exists x, py_float (PStr (usd_entry f)) = Ok x /\
              float_gt x (S754_zero false) = true.
Proof.
  intros f Hsep Hok.
  rewrite validate_usd_eq in Hok. cbn [snd] in Hok. injection Hok as Hok.
  destruct (proj1 (usd_accepted_true f) Hok) as (x & Hx & Hgt).
  rewrite (float_of_string_str_strip _ Hsep) in Hx.
  exists x. split; [| exact Hgt]. cbn [py_float]. rewrite Hx. reflexivity.
Qed.

Lemma validate_usd_then_float_witness :
  exists x, py_float (PStr " 12.50 ") = Ok x /\
            float_gt x (S754_zero false) = true.
Proof.
  apply (validate_usd_then_float (form_after_click " 12.50 ")).
  - repeat constructor.
  - reflexivity.
Defined.

(** The separators make the difference: [validate_usd] strips them, [float]
    does not. *)
Example validate_usd_separator :
  snd (validate_usd (form_after_click (String "028"%char "5"))) = Ok true /\
  py_float (PStr (String "028"%char "5")) = Raise ValueError.
Proof. split; reflexivity. Qed.

(** ** The form: the conversion handler *)

Section HandlerProperties.

Variable repr_other : pyval -> string + limit.

Lemma append_empty (s : string) : (s ++ "")%string = s.
Proof. induction s as [| a s IH]; simpl; congruence. Qed.

Lemma append_associative (s t u : string) :
  ((s ++ t) ++ u)%string = (s ++ (t ++ u))%string.
Proof. induction s as [| a s IH]; simpl; congruence. Qed.

Lemma insert_conversions_lines usd_amount x l lines :
  py_float (PStr usd_amount) = Ok x ->
  conversion_lines repr_other x l lines ->
  forall vals dst dd ue cb content sh,
    insert_conversions repr_other usd_amount l
      (mkForm vals dst dd ue cb normal content sh)
    = (mkForm vals dst dd ue cb normal (content ++ lines_text lines) sh,
       Ok tt).
Proof.
  intros Hx. unfold conversion_lines.
  induction 1 as [| c s l lines Hc _ IH]; intros vals dst dd ue cb content sh.
  - cbn [insert_conversions lines_text]. rewrite append_empty. reflexivity.
  - cbn [insert_conversions lines_text]. rewrite Hx, Hc.
    unfold result_text_insert, result_text_set.
    cbn [result_text_state result_text currency_dropdown_values
         currency_dropdown_state currency_dropdown usd_entry convert_button
         shown].
    rewrite IH. rewrite !append_associative. reflexivity.
Qed.

(** X11. When a country is selected, the amount is accepted and read by
    [float], the country is a key of the mapping and every rate under it
    coerces, the handler returns: the result text holds one line for each
    currency of the country, in the order of the list, and nothing else; it
    is disabled again, the button is enabled, and the entry, the combobox
    and the message boxes are as before. *)
Theorem update_conversion_form_for_convert_lines :
  forall (currency_dict : currency_map) (f : ConversionForm) (x : float)
         (l : list Currency) (lines : list string),
    currency_dropdown f <> EmptyString ->
    snd (validate_usd f) = Ok true ->
    py_float (PStr (usd_entry f)) = Ok x ->
    dict_getitem currency_dict (PStr (currency_dropdown f)) = Ok l ->
    conversion_lines repr_other x l lines ->
    update_conversion_form_for_convert repr_other currency_dict f
    = (mkForm (currency_dropdown_values f) (currency_dropdown_state f)
              (currency_dropdown f) (usd_entry f) normal disabled
              (lines_text lines) (shown f),
       Ok tt).
Proof.
  intros d f x l lines Hsel Hok Hx Hget Hlines.
  unfold update_conversion_form_for_convert, validate_combobox.
  destruct (String.eqb_spec (currency_dropdown f) "") as [E | _];
    [contradiction |].
  rewrite validate_usd_eq in Hok |- *. cbn [snd] in Hok.
  injection Hok as ->. rewrite Hget.
  destruct f as [vals dst dd ue cb ts content sh].
  unfold result_text_delete, result_text_set, result_text_config.
  cbn [result_text_state result_text currency_dropdown_values
       currency_dropdown_state currency_dropdown usd_entry convert_button
       shown] in *.
  rewrite (insert_conversions_lines ue x l lines Hx Hlines).
  reflexivity.
Qed.

Lemma result_text_set_fields content f :
  convert_button (result_text_set content f) = convert_button f /\
  result_text_state (result_text_set content f) = result_text_state f.
Proof.
  unfold result_text_set.
  destruct f as [vals dst dd ue cb ts old sh].
  cbn [result_text_state]. destruct ts; split; reflexivity.
Qed.

Lemma insert_conversions_fields usd_amount l :
  forall f f' r,
    insert_conversions repr_other usd_amount l f = (f', r) ->
    convert_button f' = convert_button f /\
    result_text_state f' = result_text_state f /\
    match r with
    | Ok _ => True
    | Raise e => In e coercion_errors
    end.
Proof.
  induction l as [| c l IH]; intros f f' r; cbn [insert_conversions].
  - intros [= <- <-]. auto.
  - destruct (py_float (PStr usd_amount)) as [x | e] eqn:Ex.
    + destruct (convert repr_other c x) as [s | e] eqn:Ec.
      * intros H. destruct (IH _ _ _ H) as (Hb & Hs & Hr).
        destruct (result_text_set_fields (result_text f ++ (s ++ newline)) f)
          as (Hb' & Hs').
        unfold result_text_insert in *. rewrite Hb, Hs. auto.
      * intros [= <- <-]. split; [reflexivity |]. split; [reflexivity |].
        unfold coercion_errors.
        destruct (convert_raises _ _ _ _ Ec) as [-> | [-> | [-> | ->]]];
          simpl; auto.
    + intros [= <- <-]. split; [reflexivity |]. split; [reflexivity |].
      unfold coercion_errors.
      destruct (py_float_raises _ _ Ex)
        as [[-> _] | [[-> _] | [-> _]]]; simpl; auto.
Qed.

Lemma dict_getitem_raises (d : currency_map) k e :
  dict_getitem d k = Raise e -> e = KeyError.
Proof.
  induction d as [| [k' v] rest IH]; cbn [dict_getitem].
  - congruence.
  - destruct (key_eqb k' k); [discriminate | exact IH].
Qed.

(** X12. However the handler ends: when it returns, the button is enabled;
    when it raises, the error is a [KeyError] (the country is no key of the
    mapping), or a [ValueError], a [TypeError], an [OverflowError] or a
    [RecursionError] (from [float] or [convert]), the button is in the state
    it was in, and the result text is left editable. *)
Theorem update_conversion_form_for_convert_end :
  forall (currency_dict : currency_map) (f f' : ConversionForm)
         (r : result unit),
    update_conversion_form_for_convert repr_other currency_dict f = (f', r) ->
    match r with
    | Ok _ => convert_button f' = normal
    | Raise e =>
        In e handler_errors /\
        convert_button f' = convert_button f /\
        result_text_state f' = normal
    end.
Proof.
  intros d f f' r. unfold update_conversion_form_for_convert, validate_combobox.
  destruct (String.eqb (currency_dropdown f) "").
  { intros [= <- <-]. reflexivity. }
  rewrite validate_usd_eq.
  destruct (usd_accepted f); [| intros [= <- <-]; reflexivity].
  destruct (result_text_set_fields "" (result_text_config normal f))
    as (Hb' & Hs').
  destruct (dict_getitem d (PStr (currency_dropdown f))) as [l | e] eqn:Eg.
  - destruct (insert_conversions repr_other (usd_entry f) l
                (result_text_delete (result_text_config normal f)))
      as [f2 r2] eqn:Ei.
    destruct (insert_conversions_fields _ _ _ _ _ Ei) as (Hb & Hst & Hr).
    destruct r2 as [[] | e]; intros [= <- <-]; [reflexivity |].
    unfold result_text_delete in *. rewrite Hb, Hst, Hb', Hs'.
    split; [| split; reflexivity].
    unfold handler_errors. unfold coercion_errors in Hr. simpl in Hr |- *.
    tauto.
  - intros [= <- <-].
    unfold result_text_delete. rewrite Hb', Hs'.
    split; [| split; reflexivity].
    rewrite (dict_getitem_raises _ _ _ Eg). left. reflexivity.
Qed.

(** X13. When no country is selected, or the amount is not accepted, the
    handler returns without looking at the mapping: it has shown one
    message box, emptied the entry and enabled the button, and the result
    text is as before. *)
Theorem update_conversion_form_for_convert_rejected :
  forall (currency_dict : currency_map) (f : ConversionForm),
    currency_dropdown f = EmptyString \/ snd (validate_usd f) = Ok false ->
    exists msg,
      update_conversion_form_for_convert repr_other currency_dict f
      = (mkForm (currency_dropdown_values f) (currency_dropdown_state f)
                (currency_dropdown f) EmptyString normal
                (result_text_state f) (result_text f)
                (shown f ++ [("Error", msg)]),
         Ok tt).
Proof.
  intros d f H.
  unfold update_conversion_form_for_convert, validate_combobox.
  destruct (String.eqb_spec (currency_dropdown f) "") as [E | E].
  - eexists. reflexivity.
  - destruct H as [H | H]; [contradiction |].
    rewrite validate_usd_eq in H |- *. cbn [snd] in H. injection H as ->.
    eexists. reflexivity.
Qed.

Lemma update_conversion_form_first_load_values d f :
  currency_dropdown_values (update_conversion_form_first_load d f)
  = map fst d.
Proof.
  unfold update_conversion_form_first_load, update_text, result_text_insert,
    result_text_delete, result_text_set, result_text_config,
    convert_button_config.
  reflexivity.
Qed.

Lemma update_conversion_form_for_convert_raises d f f' e :
  update_conversion_form_for_convert repr_other d f = (f', Raise e) ->
  dict_getitem d (PStr (currency_dropdown f)) = Raise e \/
  In e coercion_errors.
Proof.
  unfold update_conversion_form_for_convert, validate_combobox.
  destruct (String.eqb (currency_dropdown f) ""); [discriminate |].
  rewrite validate_usd_eq.
  destruct (usd_accepted f); [| discriminate].
  destruct (dict_getitem d (PStr (currency_dropdown f))) as [l | e0] eqn:Eg.
  - destruct (insert_conversions repr_other (usd_entry f) l
                (result_text_delete (result_text_config normal f)))
      as [f2 r2] eqn:Ei.
    destruct (insert_conversions_fields _ _ _ _ _ Ei) as (_ & _ & Hr).
    destruct r2 as [[] | e1]; [discriminate |].
    intros [= _ <-]. right. exact Hr.
  - intros [= _ <-]. left. reflexivity.
Qed.

(** X14. The countries that the first load lists can be converted: when the
    parser has returned a mapping and the combobox shows its keys, a string
    among them is a key of the mapping with at least one currency, so that
    the handler run on that mapping with that selection raises no
    [KeyError]: only [float] or [convert] can make it fail, with a
    [ValueError], a [TypeError], an [OverflowError] or a
    [RecursionError]. *)
Theorem first_load_then_convert :
  forall (w : World) (response : Response) (d : currency_map)
         (f0 f : ConversionForm) (s : string),
    parse_treasury_response w response = Ok d ->
    In (PStr s)
       (currency_dropdown_values (update_conversion_form_first_load d f0)) ->
    currency_dropdown f = s ->
    (exists l, dict_getitem d (PStr s) = Ok l /\ l <> []) /\
    (forall f' e,
        update_conversion_form_for_convert repr_other d f = (f', Raise e) ->
        In e coercion_errors).
Proof.
  intros w response d f0 f s Hp Hin Hsel.
  rewrite update_conversion_form_first_load_values in Hin.
  apply in_map_iff in Hin as ([k l] & Hk & Hkl). cbn [fst] in Hk. subst k.
  destruct (parse_treasury_response_Ok_rows w response d Hp) as (q & rows & Hr).
  assert (Hd : keys_distinct d).
  { apply (parse_rows_keys_distinct q rows [] d Hr). constructor. }
  assert (Hwf : entries_well_formed d).
  { apply (parse_rows_well_formed q rows [] d Hr). constructor. }
  assert (Hget : dict_getitem d (PStr s) = Ok l).
  { apply dict_getitem_listed; [exact Hd | | exact Hkl].
    intros k' l'. apply entries_well_formed_key_refl. exact Hwf. }
  split.
  - exists l. split; [exact Hget |].
    unfold entries_well_formed in Hwf. rewrite Forall_forall in Hwf.
    exact (proj1 (Hwf _ Hkl)).
  - intros f' e H.
    destruct (update_conversion_form_for_convert_raises d f f' e H)
      as [Hraise | He]; [| exact He].
    rewrite Hsel, Hget in Hraise. discriminate Hraise.
Qed.

End HandlerProperties.

Lemma update_conversion_form_for_convert_lines_witness :
  update_conversion_form_for_convert (fun _ => inl EmptyString)
    [(PStr "Germany", [euro])] (form_after_click "100")
  = (mkForm [PStr "Germany"] readonly "Germany" "100" normal disabled
            (lines_text ["$100.00 USD = 94.00 Euro"]) [],
     Ok tt).
Proof.
  apply (update_conversion_form_for_convert_lines (fun _ => inl EmptyString)
           [(PStr "Germany", [euro])] (form_after_click "100")
           (float_of_decimal false 100 0) [euro]
           ["$100.00 USD = 94.00 Euro"]).
  - discriminate.
  - reflexivity.
  - reflexivity.
  - reflexivity.
  - repeat constructor.
Defined.

Lemma update_conversion_form_for_convert_end_witness :
  In KeyError handler_errors /\
  convert_button
    (mkForm [PStr "Germany"] readonly "Germany" "100" disabled normal "" [])
  = convert_button (form_after_click "100") /\
  result_text_state
    (mkForm [PStr "Germany"] readonly "Germany" "100" disabled normal "" [])
  = normal.
Proof.
  apply (update_conversion_form_for_convert_end (fun _ => inl EmptyString)
           [] (form_after_click "100")
           (mkForm [PStr "Germany"] readonly "Germany" "100" disabled normal
                   "" [])
           (Raise KeyError)).
  reflexivity.
Defined.

Lemma update_conversion_form_for_convert_rejected_witness :
  exists msg,
    update_conversion_form_for_convert (fun _ => inl EmptyString)
      [(PStr "Germany", [euro])] (form_after_click "abc")
    = (mkForm [PStr "Germany"] readonly "Germany" "" normal disabled
              "Currencies loaded, ready to convert!" [("Error", msg)],
       Ok tt).
Proof.
  apply (update_conversion_form_for_convert_rejected (fun _ => inl EmptyString)
           [(PStr "Germany", [euro])] (form_after_click "abc")).
  right. reflexivity.
Defined.

Lemma first_load_then_convert_witness :
  (exists l, dict_getitem example_mapping (PStr "Germany") = Ok l /\ l <> []) /\
  (forall f' e,
      update_conversion_form_for_convert (fun _ => inl EmptyString)
        example_mapping (form_after_click "100") = (f', Raise e) ->
      In e coercion_errors).
Proof.
  apply (first_load_then_convert (fun _ => inl EmptyString) november_2023
           (response_with example_payload) example_mapping created_form
           (form_after_click "100") "Germany").
  - vm_compute. reflexivity.
  - left. reflexivity.
  - reflexivity.
Defined.

(** ** The parser: which failures are translated *)

Lemma find_last_quarter_date_invariant_violation w :
  find_last_quarter_date w = Raise BusinessLogicException ->
  12 < month (now w).
Proof.
  unfold find_last_quarter_date.
  destruct (_ <? APRIL).
  { destruct (sub_days _ _) as [t' | e0] eqn:S; cbn [bind].
    - destruct (strptime_Ymd _) as [t | e1] eqn:P; cbn [bind]; [discriminate |].
      rewrite (strptime_Ymd_raises _ _ P). discriminate.
    - rewrite (sub_days_raises _ _ _ S). discriminate. }
  destruct (_ <? JULY).
  { destruct (strptime_Ymd _) as [t | e1] eqn:P; cbn [bind]; [discriminate |].
    rewrite (strptime_Ymd_raises _ _ P). discriminate. }
  destruct (_ <? OCTOBER).
  { destruct (strptime_Ymd _) as [t | e1] eqn:P; cbn [bind]; [discriminate |].
    rewrite (strptime_Ymd_raises _ _ P). discriminate. }
  unfold DECEMBER.
  destruct (Z.leb_spec (month (now w)) 12) as [H | H]; [| intros _; exact H].
  destruct (strptime_Ymd _) as [t | e1] eqn:P; cbn [bind]; [discriminate |].
  rewrite (strptime_Ymd_raises _ _ P). discriminate.
Qed.

Lemma raise_for_status_Raise response e :
  raise_for_status response = Raise e ->
  e = HTTPError /\ 400 <= status_code response < 600.
Proof.
  unfold raise_for_status.
  destruct (Z.leb_spec 400 (status_code response));
    destruct (Z.ltb_spec (status_code response) 500);
    destruct (Z.leb_spec 500 (status_code response));
    destruct (Z.ltb_spec (status_code response) 600);
    cbn [andb orb]; try discriminate; intros [= <-]; split;
    try reflexivity; lia.
Qed.

(** A [KeyError] while the fields of a row are read: the row is a dict that
    lacks a field, and what is read before the missing field is in order. *)
Lemma row_fields_KeyError row :
  row_fields row = Raise KeyError -> row_missing_field row.
Proof.
  unfold row_fields, row_missing_field.
  destruct row as [| b | n | x | s | l | entries]; try discriminate.
  cbn [subscript].
  destruct (lookup "record_date" entries) as [df |] eqn:Ed; cbn [bind].
  2:{ intros _. exists entries. auto. }
  destruct df as [| b | n | x | s | l | l]; try discriminate.
  destruct (strptime_Ymd s) as [t | e] eqn:Es; cbn [bind].
  2:{ rewrite (strptime_Ymd_raises _ _ Es). discriminate. }
  intros H. exists entries. split; [reflexivity |]. right.
  split; [exists s, t; auto |].
  destruct (lookup "country" entries); cbn [bind] in H; [| auto].
  destruct (lookup "currency" entries); cbn [bind] in H; [| auto].
  destruct (lookup "exchange_rate" entries); cbn [bind] in H; [| auto].
  discriminate H.
Qed.

Lemma parse_row_KeyError q d row :
  parse_row q d row = Raise KeyError -> row_fields row = Raise KeyError.
Proof.
  destruct (row_fields row) as [[[[rd country] currency] rate] | e0] eqn:Hf.
  - rewrite (parse_row_fields _ _ _ _ _ _ _ Hf).
    destruct (date_eqb rd q); [| discriminate].
    destruct (key_of country); discriminate.
  - unfold parse_row. rewrite Hf. cbn [bind]. intros [= ->]. reflexivity.
Qed.

(** A [KeyError] in the loop: the rows before went through, and the row
    reached lacks a field. *)
Lemma parse_rows_KeyError q rows :
  forall d,
    parse_rows q d rows = Raise KeyError ->
    exists before row rest d',
      rows = before ++ row :: rest /\
      parse_rows q d before = Ok d' /\
      row_missing_field row.
Proof.
  induction rows as [| row rows IH]; intros d; cbn [parse_rows];
    [discriminate |].
  destruct (parse_row q d row) as [d1 | e] eqn:E; cbn [bind].
  - intros H. destruct (IH d1 H) as (before & r & rest & d' & -> & Hb & Hr).
    exists (row :: before), r, rest, d'. split; [reflexivity |].
    split; [| exact Hr]. cbn [parse_rows]. rewrite E. exact Hb.
  - intros [= ->]. exists [], row, rows, d. split; [reflexivity |].
    split; [reflexivity |].
    exact (row_fields_KeyError row (parse_row_KeyError q d row E)).
Qed.

(** The undecorated parser raises a class that the wrapper names, or the
    error of the business layer, on the listed failures only. *)
Lemma parse_treasury_response_body_translated w response e0 :
  month (now w) <= 12 ->
  parse_treasury_response_body w response = Raise e0 ->
  isinstance e0 underlying_errors = true \/ e0 = BusinessLogicException ->
  parser_failure w response.
Proof.
  intros Hm. unfold parse_treasury_response_body.
  destruct (raise_for_status response) as [[] | e] eqn:Es; cbn [bind].
  2:{ intros _ _. destruct (raise_for_status_Raise _ _ Es) as [_ H].
      exact (http_error_status w response H). }
  unfold json. destruct (body response) as [v | | l] eqn:Eb; cbn [bind].
  2:{ intros _ _. exact (undecodable_payload w response Es Eb). }
  2:{ intros [= <-] [H | H]; destruct l; vm_compute in H; discriminate H. }
  assert (Hj : forall v', v' = v -> body_json response = Some v').
  { intros v' ->. unfold body_json. rewrite Eb. reflexivity. }
  destruct (find_last_quarter_date w) as [q | e] eqn:Eq; cbn [bind].
  2:{ intros [= <-] [H | ->].
      - destruct (find_last_quarter_date_raises _ _ Eq) as [-> | [-> | ->]];
          vm_compute in H; discriminate H.
      - pose proof (find_last_quarter_date_invariant_violation w Eq). lia. }
  destruct (subscript v "data") as [data | e] eqn:Ed; cbn [bind].
  2:{ intros [= <-] [H | ->].
      - destruct v as [| b | n | x | s | l | entries];
          try (injection Ed as <-; vm_compute in H; discriminate H).
        cbn [subscript] in Ed.
        destruct (lookup "data" entries) eqn:El; [discriminate Ed |].
        exact (missing_data w response entries q Es (Hj _ eq_refl) Eq El).
      - destruct (subscript_raises _ _ _ Ed); discriminate. }
  destruct (iterate data) as [rows | e] eqn:Ei; cbn [bind].
  2:{ intros [= <-] Hc.
      assert (He : e = TypeError).
      { destruct data; try discriminate Ei; injection Ei as <-; reflexivity. }
      subst e. destruct Hc as [H | H]; [vm_compute in H |]; discriminate H. }
  intros Hp [H | ->].
  - destruct (parse_rows_raises _ _ _ _ Hp) as [-> | [-> | ->]];
      try (vm_compute in H; discriminate H).
    destruct (parse_rows_KeyError q rows [] Hp)
      as (before & row & rest & d' & -> & Hb & Hr).
    exact (missing_field w response v q data before d' row rest
             Es (Hj _ eq_refl) Eq Ed Ei Hb Hr).
  - destruct (parse_rows_raises _ _ _ _ Hp) as [H | [H | H]]; discriminate H.
Qed.

(** C4 (amended). On every input on which the parser fails, with a clock
    that shows a month: no [HTTPError], [JSONDecodeError], [KeyError] or
    [IndexError] leaves the parser; it raises [BusinessLogicException]
    exactly on the listed failures (an HTTP status from 400 to 599, a body
    that is no JSON document, a payload without [data], a row that lacks a
    field after what is read before it); and every other failure leaves it
    as the undecorated parser raised it, a [ValueError], a [TypeError], an
    [OverflowError] or a [RecursionError]. *)
Theorem parse_treasury_response_error_kinds :
  forall (w : World) (response : Response) (e : exn),
    month (now w) <= 12 ->
    parse_treasury_response w response = Raise e ->
    isinstance e underlying_errors = false /\
    (e = BusinessLogicException <-> parser_failure w response) /\
    (e <> BusinessLogicException ->
     parse_treasury_response_body w response = Raise e /\
     In e [ValueError; TypeError; OverflowError; RecursionError]).
Proof.
  intros w response e Hm H.
  assert (Hfail : parser_failure w response -> e = BusinessLogicException).
  { intros Hf. destruct (parser_failure_body w response Hf) as (e0 & Hb & He).
    unfold parse_treasury_response in H.
    rewrite (handle_request_errors_translates _ _ e0 Hb He) in H.
    congruence. }
  pose proof (handle_request_errors_no_leak
                (parse_treasury_response_body w) response) as Hleak.
  fold (parse_treasury_response w response) in Hleak. rewrite H in Hleak.
  split; [exact Hleak |].
  unfold parse_treasury_response, handle_request_errors in H.
  destruct (parse_treasury_response_body w response) as [d | e0] eqn:Eb;
    [discriminate |].
  pose proof (parse_treasury_response_body_translated w response e0 Hm Eb)
    as Hcause.
  pose proof (parse_treasury_response_body_raises w response e0 Eb) as Hin.
  simpl in Hin.
  destruct Hin as [<- | [<- | [<- | [<- | [<- | [<- | [<- | [<- | []]]]]]]]];
    vm_compute in H; injection H as <-.
  - split; [split; [intros _; apply Hcause; left; reflexivity | reflexivity] |].
    intros Hne. contradiction Hne. reflexivity.
  - split; [split; [intros _; apply Hcause; left; reflexivity | reflexivity] |].
    intros Hne. contradiction Hne. reflexivity.
  - split; [split; [intros _; apply Hcause; left; reflexivity | reflexivity] |].
    intros Hne. contradiction Hne. reflexivity.
  - split; [split; [discriminate | exact Hfail] |].
    intros _. split; [reflexivity | simpl; auto].
  - split; [split; [discriminate | exact Hfail] |].
    intros _. split; [reflexivity | simpl; auto].
  - split; [split; [discriminate | exact Hfail] |].
    intros _. split; [reflexivity | simpl; auto].
  - split; [split; [intros _; apply Hcause; right; reflexivity | reflexivity] |].
    intros Hne. contradiction Hne. reflexivity.
  - split; [split; [discriminate | exact Hfail] |].
    intros _. split; [reflexivity | simpl; auto].
Qed.

Lemma parse_treasury_response_error_kinds_witness :
  isinstance BusinessLogicException underlying_errors = false /\
  (BusinessLogicException = BusinessLogicException <->
   parser_failure november_2023 (mkResponse 500 not_json)) /\
  (BusinessLogicException <> BusinessLogicException ->
   parse_treasury_response_body november_2023 (mkResponse 500 not_json)
   = Raise BusinessLogicException /\
   In BusinessLogicException
      [ValueError; TypeError; OverflowError; RecursionError]).
Proof.
  apply (parse_treasury_response_error_kinds november_2023
           (mkResponse 500 not_json) BusinessLogicException).
  - vm_compute. discriminate.
  - vm_compute. reflexivity.
Defined.

(** C4, as stated, fails: a row that lacks its
    [country] makes the parser raise [ValueError] when its date is not a
    [%Y-%m-%d] date, and [TypeError] when its date is [null], because the
    date is read first; a body that [json()] refuses for an integer literal
    of too many digits, or for its depth, raises [ValueError] or
    [RecursionError]; and a status that is not 2xx but below 400 is no
    failure at all. *)
Lemma parse_treasury_response_untranslated_failures :
  lookup "country" row_without_country = None /\
  parse_treasury_response november_2023
    (response_with [PDict row_without_country])
  = Raise ValueError /\
  lookup "country" row_with_null_date = None /\
  parse_treasury_response november_2023
    (response_with [PDict row_with_null_date])
  = Raise TypeError /\
  parse_treasury_response november_2023
    (mkResponse 200 (over_limit max_str_digits))
  = Raise ValueError /\
  parse_treasury_response november_2023
    (mkResponse 200 (over_limit recursion_depth))
  = Raise RecursionError /\
  parse_treasury_response november_2023
    (mkResponse 304 (decoded (PDict [("data", PList [])])))
  = Ok [].
Proof.
  split; [reflexivity |].
  split; [vm_compute; reflexivity |].
  split; [reflexivity |].
  split; [vm_compute; reflexivity |].
  split; [vm_compute; reflexivity |].
  split; [vm_compute; reflexivity |].
  vm_compute. reflexivity.
Qed.
